(** * sevdesk-mcp: the tool adapter of [src/index.ts]

    A shallow embedding of the SevDesk MCP server: the JSON values the
    adapter shuffles around, the JavaScript operators it applies to them,
    the [SevDeskClient] class ([request], [createPositions]) and the
    [CallToolRequestSchema] handler, followed by the properties of the
    natural-language specification.

    Conventions.
    - A JavaScript object is an association list in property enumeration
      order; the adapter only ever appends keys, so insertion order and
      enumeration order agree.
    - A JavaScript number is modelled on the integers [Z]. The adapter never
      computes with a number: it prints one (an HTTP status, an id) and it
      tests one against zero in [||], [&&] and [if], where a fraction behaves
      as any non-zero integer does. Printing is decimal, which is what
      JavaScript prints for an integer of magnitude below 1e21.
    - A JavaScript string is a [string] of bytes; on ASCII text a byte is a
      UTF-16 code unit. *)

From Stdlib Require Import List String Ascii ZArith Lia Bool DecimalString.

#[local] Set Warnings "-register-all".
Import ListNotations.
Open Scope string_scope.
Open Scope Z_scope.

(** ** JSON values *)

Inductive JSON : Type :=
| JUndefined
| JNull
| JBool (b : bool)
| JNum (n : Z)
| JStr (s : string)
| JArr (items : list JSON)
| JObj (fields : list (string * JSON)).

Module Js.

(** ToBoolean: the falsy values are undefined, null, false, 0 and the
    empty string; arrays and objects are truthy, also when empty. *)
Definition truthy (v : JSON) : bool :=
  match v with
  | JUndefined | JNull => false
  | JBool b => b
  | JNum n => negb (n =? 0)
  | JStr s => negb (s =? "")%string
  | JArr _ | JObj _ => true
  end.

(** [a || b] *)
Definition or_else (a b : JSON) : JSON := if truthy a then a else b.

(** A property read on null or undefined throws a TypeError. *)
Definition nullish (v : JSON) : bool :=
  match v with
  | JUndefined | JNull => true
  | _ => false
  end.

Fixpoint lookup (k : string) (o : list (string * JSON)) : option JSON :=
  match o with
  | [] => None
  | (k', v) :: rest => if (k' =? k)%string then Some v else lookup k rest
  end.

(** [v.k] for the keys the adapter reads ([quantity], [price], [name],
    [unityId], [taxRate], [text], [objects], [id], [length] and the tool
    arguments): none of them lives on a built-in prototype apart from
    [length], which arrays and strings own. The caller guards against
    null and undefined. *)
Definition prop (v : JSON) (k : string) : JSON :=
  match v with
  | JObj o => match lookup k o with Some x => x | None => JUndefined end
  | JArr l => if (k =? "length")%string then JNum (Z.of_nat (List.length l)) else JUndefined
  | JStr s => if (k =? "length")%string then JNum (Z.of_nat (String.length s)) else JUndefined
  | _ => JUndefined
  end.

(** [v?.k] *)
Definition opt_prop (v : JSON) (k : string) : JSON :=
  if nullish v then JUndefined else prop v k.

(** [o.k = v]: overwrite in place, or append a new key. *)
Fixpoint set (k : string) (v : JSON) (o : list (string * JSON)) : list (string * JSON) :=
  match o with
  | [] => [(k, v)]
  | (k', v') :: rest =>
      if (k' =? k)%string then (k, v) :: rest else (k', v') :: set k v rest
  end.

(** [const { k = d } = args]: the default replaces undefined only. *)
Definition prop_default (v : JSON) (k : string) (d : JSON) : JSON :=
  match prop v k with
  | JUndefined => d
  | x => x
  end.

Definition string_of_Z (n : Z) : string := NilZero.string_of_int (Z.to_int n).

Definition chars (s : string) : list JSON :=
  map (fun c => JStr (String c EmptyString)) (list_ascii_of_string s).

Fixpoint indexed (i : nat) (l : list JSON) : list (string * JSON) :=
  match l with
  | [] => []
  | x :: rest => (string_of_Z (Z.of_nat i), x) :: indexed (S i) rest
  end.

(** The own enumerable properties an object rest pattern copies. *)
Definition own_enumerable (v : JSON) : list (string * JSON) :=
  match v with
  | JObj o => o
  | JArr l => indexed 0 l
  | JStr s => indexed 0 (chars s)
  | _ => []
  end.

(** [const { k, ...rest } = v] *)
Definition rest_without (k : string) (v : JSON) : JSON :=
  JObj (filter (fun kv => negb (fst kv =? k)%string) (own_enumerable v)).

Fixpoint join (sep : string) (l : list string) : string :=
  match l with
  | [] => ""
  | [x] => x
  | x :: rest => x ++ sep ++ join sep rest
  end.

(** ToString, as a template literal applies it. *)
Fixpoint to_string (v : JSON) : string :=
  match v with
  | JUndefined => "undefined"
  | JNull => "null"
  | JBool true => "true"
  | JBool false => "false"
  | JNum n => string_of_Z n
  | JStr s => s
  | JArr l =>
      join "," ((fix each (l : list JSON) : list string :=
                   match l with
                   | [] => []
                   | x :: rest => (if nullish x then "" else to_string x) :: each rest
                   end) l)
  | JObj _ => "[object Object]"
  end.

End Js.

(** ** JSON.stringify *)

Module Json.

Definition hex_digit (n : nat) : ascii :=
  nth n (list_ascii_of_string "0123456789abcdef") "0"%char.

(** QuoteJSONString on one code unit. *)
Definition escape (c : ascii) : string :=
  let n := nat_of_ascii c in
  if (n =? 8)%nat then "\b"
  else if (n =? 9)%nat then "\t"
  else if (n =? 10)%nat then "\n"
  else if (n =? 12)%nat then "\f"
  else if (n =? 13)%nat then "\r"
  else if (n =? 34)%nat then String "\"%char (String (ascii_of_nat 34) "")
  else if (n =? 92)%nat then "\\"
  else if (n <? 32)%nat
       then "\u00" ++ String (hex_digit (n / 16)) (String (hex_digit (n mod 16)) "")
  else String c "".

Fixpoint escape_all (s : string) : string :=
  match s with
  | EmptyString => ""
  | String c rest => escape c ++ escape_all rest
  end.

Definition dquote : string := String (ascii_of_nat 34) "".
Definition newline : string := String (ascii_of_nat 10) "".

Definition quote (s : string) : string := dquote ++ escape_all s ++ dquote.

(** The brackets around the serialized members of an array or object. *)
Definition wrap (opening closing gap stepback indent : string) (partial : list string) : string :=
  match partial with
  | [] => opening ++ closing
  | _ =>
      if (gap =? "")%string
      then opening ++ Js.join "," partial ++ closing
      else opening ++ newline ++ indent
             ++ Js.join ("," ++ newline ++ indent) partial
             ++ newline ++ stepback ++ closing
  end.

(** SerializeJSONProperty: [None] is undefined. *)
Fixpoint serialize (gap indent : string) (v : JSON) {struct v} : option string :=
  match v with
  | JUndefined => None
  | JNull => Some "null"
  | JBool true => Some "true"
  | JBool false => Some "false"
  | JNum n => Some (Js.string_of_Z n)
  | JStr s => Some (quote s)
  | JArr l =>
      let inner := indent ++ gap in
      Some (wrap "[" "]" gap indent inner
              ((fix elements (l : list JSON) : list string :=
                  match l with
                  | [] => []
                  | x :: rest =>
                      match serialize gap inner x with
                      | Some s => s
                      | None => "null"
                      end :: elements rest
                  end) l))
  | JObj o =>
      let inner := indent ++ gap in
      Some (wrap "{" "}" gap indent inner
              ((fix members (o : list (string * JSON)) : list string :=
                  match o with
                  | [] => []
                  | (k, x) :: rest =>
                      match serialize gap inner x with
                      | Some s =>
                          (quote k ++ ":" ++ (if (gap =? "")%string then "" else " ") ++ s)
                            :: members rest
                      | None => members rest
                      end
                  end) o))
  end.

(** [JSON.stringify(v)] and [JSON.stringify(v, null, 2)]; the result is a
    string or undefined. *)
Definition of_option (o : option string) : JSON :=
  match o with
  | Some s => JStr s
  | None => JUndefined
  end.

Definition stringify (v : JSON) : JSON := of_option (serialize "" "" v).
Definition stringify2 (v : JSON) : JSON := of_option (serialize "  " "" v).

End Json.

(** ** Exceptions, HTTP exchanges and the host *)

(** What the adapter can throw or catch. The wording of a TypeError is the
    engine's own; the texts below follow V8 and nothing is proved from
    them. *)
Inductive Exn : Type :=
| Error (message : string)
| TypeError (message : string)
| McpError (code : Z) (message : string)
| AxiosError (message : string) (response : option (Z * JSON)).

(** [ErrorCode.MethodNotFound] of the MCP SDK. *)
Definition MethodNotFound : Z := -32601.

(** [error.message]; the SDK's [McpError] prefixes its code. *)
Definition message (e : Exn) : string :=
  match e with
  | Error m | TypeError m | AxiosError m _ => m
  | McpError code m => "MCP error " ++ Js.string_of_Z code ++ ": " ++ m
  end.

(** The argument of [this.client.request]. *)
Record Config : Type := mkConfig {
  method : JSON;
  url : JSON;
  data : JSON;
  params : JSON
}.

(** What the network does with one request: the server answers with a status
    and a parsed body, nothing comes back, or the client library throws
    something of its own. *)
Inductive HttpOutcome : Type :=
| Response (status : Z) (body : JSON)
| NoResponse (reason : string)
| Crash (e : Exn).

Record Exchange : Type := mkExchange {
  sent : Config;
  got : HttpOutcome
}.

(** The host the adapter runs in: the backend (which may answer by what it
    has seen so far), the clock read by [new Date().toISOString()], and
    whether a string converts to a number above zero (StringToNumber, only
    consulted when [positions] is an object with a non-numeric [length]). *)
Record Host : Type := mkHost {
  backend : list Exchange -> Config -> HttpOutcome;
  now : string;
  str_gt_zero : string -> bool
}.

(** ** Programs: return, throw, or await one HTTP exchange *)

Inductive Prog (A : Type) : Type :=
| Ret (a : A)
| Throw (e : Exn)
| Http (c : Config) (k : HttpOutcome -> Prog A).

Arguments Ret {A} a.
Arguments Throw {A} e.
Arguments Http {A} c k.

Fixpoint bind {A B : Type} (p : Prog A) (f : A -> Prog B) : Prog B :=
  match p with
  | Ret a => f a
  | Throw e => Throw e
  | Http c k => Http c (fun o => bind (k o) f)
  end.

(** [try { p } catch (e) { h e }] *)
Fixpoint try_catch {A : Type} (p : Prog A) (h : Exn -> Prog A) : Prog A :=
  match p with
  | Ret a => Ret a
  | Throw e => h e
  | Http c k => Http c (fun o => try_catch (k o) h)
  end.

Declare Scope prog_scope.
Delimit Scope prog_scope with prog.
Notation "x <- p ;; q" := (bind p (fun x => q))
  (at level 100, p at next level, right associativity) : prog_scope.
Notation "p ;; q" := (bind p (fun _ => q))
  (at level 100, right associativity) : prog_scope.
Open Scope prog_scope.

(** Running a program against a host appends every exchange to the log. *)
Fixpoint run {A : Type} (host : Host) (p : Prog A) (log : list Exchange)
  : list Exchange * (Exn + A) :=
  match p with
  | Ret a => (log, inr a)
  | Throw e => (log, inl e)
  | Http c k =>
      let o := backend host log c in
      run host (k o) (log ++ [mkExchange c o])
  end.

(** ** axios *)

(** The default [validateStatus]. *)
Definition validateStatus (status : Z) : bool := (200 <=? status) && (status <? 300).

(** [await this.client.request(config)]: the response (status, data), or an
    AxiosError that carries the response when there was one. *)
Definition axios_request (c : Config) : Prog (Z * JSON) :=
  Http c (fun o =>
    match o with
    | Response status body =>
        if validateStatus status then Ret (status, body)
        else Throw (AxiosError ("Request failed with status code " ++ Js.string_of_Z status)
                               (Some (status, body)))
    | NoResponse reason => Throw (AxiosError reason None)
    | Crash e => Throw e
    end).

(** ** class SevDeskClient *)

Inductive ParentType : Type := Invoice | Order.

Module SevDeskClient.

(** [error.response?.status] and [error.response?.data] *)
Definition response_status (response : option (Z * JSON)) : JSON :=
  match response with
  | Some (status, _) => JNum status
  | None => JUndefined
  end.

Definition response_data (response : option (Z * JSON)) : JSON :=
  match response with
  | Some (_, body) => body
  | None => JUndefined
  end.

Definition api_error_message (response : option (Z * JSON)) : string :=
  "SevDesk API Error: " ++ Js.to_string (response_status response)
    ++ " - " ++ Js.to_string (Json.stringify (response_data response)).

Definition request (method url data params : JSON) : Prog JSON :=
  try_catch
    (response <- axios_request (mkConfig method url data params) ;;
     Ret (snd response))
    (fun error =>
       match error with
       | AxiosError _ response => Throw (Error (api_error_message response))
       | _ => Throw error
       end).

Definition objectName (parentType : ParentType) : string :=
  match parentType with
  | Invoice => "Invoice"
  | Order => "Order"
  end.

Definition endpoint (parentType : ParentType) : string :=
  match parentType with
  | Invoice => "/InvoicePos"
  | Order => "/OrderPos"
  end.

Definition parentKey (parentType : ParentType) : string :=
  match parentType with
  | Invoice => "invoice"
  | Order => "order"
  end.

(** The payload of one position; [pos] is neither null nor undefined. *)
Definition position_object (parentId : JSON) (parentType : ParentType) (pos : JSON) : JSON :=
  let payload :=
    [ (parentKey parentType,
        JObj [("id", parentId); ("objectName", JStr (objectName parentType))]);
      ("quantity", Js.or_else (Js.prop pos "quantity") (JNum 1));
      ("price", Js.prop pos "price");
      ("name", Js.prop pos "name");
      ("unity",
        JObj [("id", Js.or_else (Js.prop pos "unityId") (JStr "1"));
              ("objectName", JStr "Unity")]);
      ("taxRate", Js.or_else (Js.prop pos "taxRate") (JNum 0));
      ("mapAll", JBool true) ] in
  JObj (if Js.truthy (Js.prop pos "text")
        then Js.set "text" (Js.prop pos "text") payload
        else payload).

(** Reading [pos.quantity] is the first thing the loop body does. *)
Definition position_payload (parentId : JSON) (parentType : ParentType) (pos : JSON)
  : Prog JSON :=
  if Js.nullish pos
  then Throw (TypeError ("Cannot read properties of " ++ Js.to_string pos
                           ++ " (reading 'quantity')"))
  else Ret (position_object parentId parentType pos).

(** The body of [for (const pos of positions)], with [results] threaded. *)
Fixpoint createPositions_loop (parentId : JSON) (parentType : ParentType)
    (positions : list JSON) (results : list JSON) : Prog (list JSON) :=
  match positions with
  | [] => Ret results
  | pos :: rest =>
      payload <- position_payload parentId parentType pos ;;
      result <- request (JStr "POST") (JStr (endpoint parentType)) payload JUndefined ;;
      createPositions_loop parentId parentType rest (results ++ [result])
  end.

(** What [for ... of] iterates: the elements of an array, the characters
    of a string (one per byte here, which is one per code point on ASCII
    text); a plain object is not iterable. *)
Definition iterate (positions : JSON) : Prog (list JSON) :=
  match positions with
  | JArr l => Ret l
  | JStr s => Ret (Js.chars s)
  | _ => Throw (TypeError "positions is not iterable")
  end.

Definition createPositions (parentId : JSON) (parentType : ParentType) (positions : JSON)
  : Prog (list JSON) :=
  items <- iterate positions ;;
  createPositions_loop parentId parentType items [].

End SevDeskClient.

(** ** The tool handlers *)

(** The names declared by the [ListToolsRequestSchema] handler. *)
Definition tools : list string :=
  [ "request"; "list_contacts"; "create_contact"; "update_contact";
    "list_invoices"; "get_invoice_positions"; "create_invoice";
    "update_invoice"; "create_offer"; "update_offer" ].

(** The value a handler resolves to: [content[0].text] and [isError]. *)
Record ToolResult : Type := mkToolResult {
  text : JSON;
  isError : bool
}.

Definition text_content (value : JSON) : ToolResult :=
  mkToolResult (Json.stringify2 value) false.

Definition error_content (error : Exn) : ToolResult :=
  mkToolResult (JStr ("Error: " ++ message error)) true.

(** [const { ... } = args as any] throws when [args] is missing. The text
    of the TypeError is indicative: the engine names the first property
    of the pattern. *)
Definition destructure (args : JSON) : Prog unit :=
  if Js.nullish args
  then Throw (TypeError ("Cannot destructure 'args' as it is " ++ Js.to_string args ++ "."))
  else Ret tt.

(** [response.objects?.id || response.id], on a response that is neither
    null nor undefined. *)
Definition resolved_id (response : JSON) : JSON :=
  Js.or_else (Js.opt_prop (Js.prop response "objects") "id") (Js.prop response "id").

Definition created_id (response : JSON) : Prog JSON :=
  if Js.nullish response
  then Throw (TypeError ("Cannot read properties of " ++ Js.to_string response
                           ++ " (reading 'objects')"))
  else Ret (resolved_id response).

(** [v > 0] *)
Definition gt_zero (host : Host) (v : JSON) : bool :=
  match v with
  | JNum n => 0 <? n
  | JBool b => b
  | JStr s => str_gt_zero host s
  | JArr _ => str_gt_zero host (Js.to_string v)
  | JUndefined | JNull | JObj _ => false
  end.

(** [positions && positions.length > 0 && id] *)
Definition wants_positions (host : Host) (positions id : JSON) : bool :=
  Js.truthy positions && gt_zero host (Js.prop positions "length") && Js.truthy id.

Definition reference (id : JSON) (objectName : string) : JSON :=
  JObj [("id", id); ("objectName", JStr objectName)].

(** [if (v) params.k = v] *)
Definition set_if (k : string) (v : JSON) (o : list (string * JSON)) : list (string * JSON) :=
  if Js.truthy v then Js.set k v o else o.

Section Handlers.

Variable host : Host.

Definition raw_request (args : JSON) : Prog ToolResult :=
  destructure args ;;
  response <- SevDeskClient.request (Js.prop args "method") (Js.prop args "url")
                (Js.prop args "data") (Js.prop args "params") ;;
  Ret (text_content response).

Definition list_contacts_params (args : JSON) : JSON :=
  let params :=
    [ ("limit", Js.prop_default args "limit" (JNum 50));
      ("offset", Js.prop_default args "offset" (JNum 0));
      ("countAll", JBool true) ] in
  let params :=
    if Js.truthy (Js.prop args "depth")
    then Js.set "embed" (JStr "category,parent") params
    else params in
  JObj (set_if "customerNumber" (Js.prop args "customerNumber") params).

Definition list_contacts (args : JSON) : Prog ToolResult :=
  destructure args ;;
  response <- SevDeskClient.request (JStr "GET") (JStr "/Contact") JUndefined
                (list_contacts_params args) ;;
  Ret (text_content response).

Definition create_contact_payload (args : JSON) : JSON :=
  let payload :=
    [ ("objectName", JStr "Contact");
      ("status", Js.or_else (Js.prop args "status") (JStr "1000"));
      ("category", reference (Js.prop args "categoryId") "Category") ] in
  let payload := set_if "name" (Js.prop args "name") payload in
  let payload := set_if "surename" (Js.prop args "surename") payload in
  let payload := set_if "familyname" (Js.prop args "familyname") payload in
  JObj (set_if "customerNumber" (Js.prop args "customerNumber") payload).

Definition create_contact (args : JSON) : Prog ToolResult :=
  destructure args ;;
  response <- SevDeskClient.request (JStr "POST") (JStr "/Contact")
                (create_contact_payload args) JUndefined ;;
  Ret (text_content response).

(** [const { idKey, ...fields } = args] then one PUT to [path/id]. *)
Definition update (path idKey : string) (args : JSON) : Prog ToolResult :=
  destructure args ;;
  response <- SevDeskClient.request (JStr "PUT")
                (JStr (path ++ Js.to_string (Js.prop args idKey)))
                (Js.rest_without idKey args) JUndefined ;;
  Ret (text_content response).

Definition update_contact : JSON -> Prog ToolResult := update "/Contact/" "contactId".
Definition update_invoice : JSON -> Prog ToolResult := update "/Invoice/" "invoiceId".
Definition update_offer : JSON -> Prog ToolResult := update "/Order/" "orderId".

Definition list_invoices_params (args : JSON) : JSON :=
  let params :=
    [ ("limit", Js.prop_default args "limit" (JNum 50));
      ("offset", Js.prop_default args "offset" (JNum 0));
      ("countAll", JBool true) ] in
  let params := set_if "status" (Js.prop args "status") params in
  JObj (set_if "contact[id]" (Js.prop args "contactId") params).

Definition list_invoices (args : JSON) : Prog ToolResult :=
  destructure args ;;
  response <- SevDeskClient.request (JStr "GET") (JStr "/Invoice") JUndefined
                (list_invoices_params args) ;;
  Ret (text_content response).

Definition get_invoice_positions (args : JSON) : Prog ToolResult :=
  destructure args ;;
  response <- SevDeskClient.request (JStr "GET") (JStr "/InvoicePos") JUndefined
                (JObj [ ("limit", Js.prop_default args "limit" (JNum 50));
                        ("offset", Js.prop_default args "offset" (JNum 0));
                        ("invoice[id]", Js.prop args "invoiceId");
                        ("invoice[objectName]", JStr "Invoice") ]) ;;
  Ret (text_content response).

Definition create_invoice_payload (args : JSON) : JSON :=
  let payload :=
    [ ("contact", reference (Js.prop args "contactId") "Contact");
      ("invoiceType", JStr "RE");
      ("status", Js.or_else (Js.prop args "status") (JStr "100"));
      ("invoiceDate", Js.or_else (Js.prop args "invoiceDate") (JStr (now host)));
      ("header", Js.or_else (Js.prop args "header") (JStr "Invoice"));
      ("currency", Js.or_else (Js.prop args "currency") (JStr "EUR"));
      ("taxType", Js.or_else (Js.prop args "taxType") (JStr "default"));
      ("mapAll", JBool true) ] in
  JObj (set_if "deliveryDate" (Js.prop args "deliveryDate") payload).

Definition create_invoice (args : JSON) : Prog ToolResult :=
  destructure args ;;
  let positions := Js.prop args "positions" in
  invoiceResponse <- SevDeskClient.request (JStr "POST") (JStr "/Invoice")
                       (create_invoice_payload args) JUndefined ;;
  invoiceId <- created_id invoiceResponse ;;
  if wants_positions host positions invoiceId
  then
    posResults <- SevDeskClient.createPositions invoiceId Invoice positions ;;
    Ret (text_content (JObj [("invoice", invoiceResponse); ("positions", JArr posResults)]))
  else Ret (text_content invoiceResponse).

Definition create_offer_payload (args : JSON) : JSON :=
  JObj [ ("contact", reference (Js.prop args "contactId") "Contact");
         ("orderType", JStr "AN");
         ("status", Js.or_else (Js.prop args "status") (JStr "100"));
         ("orderDate", Js.or_else (Js.prop args "orderDate") (JStr (now host)));
         ("header", Js.or_else (Js.prop args "header") (JStr "Offer"));
         ("mapAll", JBool true) ].

Definition create_offer (args : JSON) : Prog ToolResult :=
  destructure args ;;
  let positions := Js.prop args "positions" in
  orderResponse <- SevDeskClient.request (JStr "POST") (JStr "/Order")
                     (create_offer_payload args) JUndefined ;;
  orderId <- created_id orderResponse ;;
  if wants_positions host positions orderId
  then
    posResults <- SevDeskClient.createPositions orderId Order positions ;;
    Ret (text_content (JObj [("offer", orderResponse); ("positions", JArr posResults)]))
  else Ret (text_content orderResponse).

(** The [switch (name)] of the CallToolRequestSchema handler. *)
Definition dispatch (name : string) (args : JSON) : Prog ToolResult :=
  if (name =? "request")%string then raw_request args
  else if (name =? "list_contacts")%string then list_contacts args
  else if (name =? "create_contact")%string then create_contact args
  else if (name =? "update_contact")%string then update_contact args
  else if (name =? "list_invoices")%string then list_invoices args
  else if (name =? "get_invoice_positions")%string then get_invoice_positions args
  else if (name =? "create_invoice")%string then create_invoice args
  else if (name =? "update_invoice")%string then update_invoice args
  else if (name =? "create_offer")%string then create_offer args
  else if (name =? "update_offer")%string then update_offer args
  else Throw (McpError MethodNotFound ("Unknown tool: " ++ name)).

(** The whole handler: every error becomes an error-flagged result. *)
Definition handler (name : string) (args : JSON) : Prog ToolResult :=
  try_catch (dispatch name args) (fun error => Ret (error_content error)).

Definition call (name : string) (args : JSON) : list Exchange * (Exn + ToolResult) :=
  run host (handler name args) [].

End Handlers.

(** * Observations

    What the properties talk about: what [request] makes of one outcome,
    the requests a document tool is expected to send, and a few hosts to
    run the adapter against. *)

(** The body of a 2xx response, or the exception [request] throws. *)
Definition request_result (o : HttpOutcome) : Exn + JSON :=
  match o with
  | Response status body =>
      if validateStatus status then inr body
      else inl (Error (SevDeskClient.api_error_message (Some (status, body))))
  | NoResponse _ => inl (Error (SevDeskClient.api_error_message None))
  | Crash (AxiosError _ response) => inl (Error (SevDeskClient.api_error_message response))
  | Crash e => inl e
  end.

Definition succeeded (ex : Exchange) : bool :=
  match got ex with
  | Response status _ => validateStatus status
  | _ => false
  end.

Definition response_body (ex : Exchange) : JSON :=
  match got ex with
  | Response _ body => body
  | _ => JUndefined
  end.

(** An HTTP-layer failure without a response object: the network gave
    nothing back, or the client threw an AxiosError that has none. *)
Definition carries_no_response (o : HttpOutcome) : bool :=
  match o with
  | NoResponse _ => true
  | Crash (AxiosError _ None) => true
  | _ => false
  end.

(** A program is fail-fast when every HTTP exchange in it is a [request]
    whose exception nothing catches on the way. *)
Inductive FailFast {A : Type} : Prog A -> Prop :=
| FF_Ret (a : A) : FailFast (Ret a)
| FF_Throw (e : Exn) : FailFast (Throw e)
| FF_Http (c : Config) (k : HttpOutcome -> Prog A) :
    (forall o e, request_result o = inl e -> k o = Throw e) ->
    (forall o, FailFast (k o)) ->
    FailFast (Http c k).

Create HintDb failfast.
#[local] Hint Constructors FailFast : failfast.

(** [needle] occurs in [hay]. *)
Definition contains (needle hay : string) : Prop :=
  exists before after, hay = before ++ needle ++ after.

(** The keys of an object, in order. *)
Definition keys (v : JSON) : list string :=
  match v with
  | JObj fields => map fst fields
  | _ => []
  end.

(** The request [createPositions] issues for one position. *)
Definition position_post (parentId : JSON) (t : ParentType) (pos : JSON) : Config :=
  mkConfig (JStr "POST") (JStr (SevDeskClient.endpoint t))
           (SevDeskClient.position_object parentId t pos) JUndefined.

(** The two tools that create a document, by the kind of document. *)
Definition document_tool (t : ParentType) : string :=
  match t with
  | Invoice => "create_invoice"
  | Order => "create_offer"
  end.

Definition document_key (t : ParentType) : string :=
  match t with
  | Invoice => "invoice"
  | Order => "offer"
  end.

(** The request that creates the document itself. *)
Definition document_post (host : Host) (t : ParentType) (args : JSON) : Config :=
  match t with
  | Invoice => mkConfig (JStr "POST") (JStr "/Invoice") (create_invoice_payload host args) JUndefined
  | Order => mkConfig (JStr "POST") (JStr "/Order") (create_offer_payload host args) JUndefined
  end.

(** [{ invoice: response, positions: results }], resp. [{ offer: ... }]. *)
Definition composite (t : ParentType) (response : JSON) (results : list JSON) : JSON :=
  JObj [(document_key t, response); ("positions", JArr results)].

Definition null_response_error (response : JSON) : Exn :=
  TypeError ("Cannot read properties of " ++ Js.to_string response ++ " (reading 'objects')").

(** ** Hosts and arguments for the examples *)

(** Every request is answered 404. *)
Definition not_found_host : Host :=
  mkHost (fun _ _ => Response 404 (JObj [("error", JStr "no such contact")]))
         "2026-01-01T00:00:00.000Z" (fun _ => false).

(** No request is answered. *)
Definition offline_host : Host :=
  mkHost (fun _ _ => NoResponse "getaddrinfo ENOTFOUND my.sevdesk.de")
         "2026-01-01T00:00:00.000Z" (fun _ => false).

(** Every request creates an object, with ids 100, 101, ... *)
Definition created_host : Host :=
  mkHost (fun log _ =>
            Response 201 (JObj [("objects",
                                  JObj [("id", JNum (Z.of_nat (100 + List.length log)))])]))
         "2026-01-01T00:00:00.000Z" (fun _ => false).

(** Every request creates the object 77. *)
Definition order_host : Host :=
  mkHost (fun _ _ => Response 201 (JObj [("objects", JObj [("id", JStr "77")])]))
         "2026-01-01T00:00:00.000Z" (fun _ => false).

(** The first two requests create an object, the later ones are answered
    500. *)
Definition failing_host : Host :=
  mkHost (fun log _ =>
            if (List.length log <? 2)%nat
            then Response 201 (JObj [("id", JStr "42")])
            else Response 500 (JObj [("error", JStr "boom")]))
         "2026-01-01T00:00:00.000Z" (fun _ => false).

(** The first request creates the object 42, the later ones are answered
    422. *)
Definition rejecting_host : Host :=
  mkHost (fun log _ =>
            if (List.length log <? 1)%nat
            then Response 201 (JObj [("id", JStr "42")])
            else Response 422 (JObj [("error", JStr "invalid taxRate")]))
         "2026-01-01T00:00:00.000Z" (fun _ => false).

Definition two_positions : list JSON :=
  [ JObj [("name", JStr "Widget"); ("price", JNum 10)];
    JObj [("name", JStr "Gadget"); ("price", JNum 25); ("quantity", JNum 3)] ].

Definition three_positions : list JSON :=
  [ JObj [("name", JStr "a"); ("price", JNum 1)];
    JObj [("name", JStr "b"); ("price", JNum 2)];
    JObj [("name", JStr "c"); ("price", JNum 3)] ].

Definition widget_offer : JSON :=
  JObj [ ("contactId", JStr "5");
         ("positions", JArr [JObj [("name", JStr "Widget"); ("price", JNum 10)]]) ].

(** ** More observations *)

(** The tools that issue one request and return its answer. *)
Definition simple_tools : list string :=
  [ "request"; "list_contacts"; "create_contact"; "update_contact";
    "list_invoices"; "get_invoice_positions"; "update_invoice"; "update_offer" ].


(** [error instanceof AxiosError] *)
Definition is_axios_error (e : Exn) : bool :=
  match e with
  | AxiosError _ _ => true
  | _ => false
  end.

(** The client library throws before anything is sent. *)
Definition crash_host : Host :=
  mkHost (fun _ _ => Crash (TypeError "Invalid URL"))
         "2026-01-01T00:00:00.000Z" (fun _ => false).


(** The three update tools: name, path prefix and id key. *)
Definition update_tools : list (string * (string * string)) :=
  [ ("update_contact", ("/Contact/", "contactId"));
    ("update_invoice", ("/Invoice/", "invoiceId"));
    ("update_offer", ("/Order/", "orderId")) ].

(** Every value a program can return satisfies [P]. *)
Fixpoint Leaves {A : Type} (P : A -> Prop) (p : Prog A) : Prop :=
  match p with
  | Ret a => P a
  | Throw _ => True
  | Http _ k => forall o, Leaves P (k o)
  end.

(** A result built by [JSON.stringify(value, null, 2)], without the flag. *)
Definition is_text_content (result : ToolResult) : Prop :=
  exists value, result = text_content value.

(** * Properties *)

(** ** Running programs *)

Lemma run_bind {A B : Type} (host : Host) (p : Prog A) (f : A -> Prog B) :
  forall log,
    run host (bind p f) log =
    match run host p log with
    | (log', inr a) => run host (f a) log'
    | (log', inl e) => (log', inl e)
    end.
Proof.
  induction p as [a | e | c k IH]; intros log; simpl; auto.
Qed.

Lemma run_try_catch {A : Type} (host : Host) (p : Prog A) (h : Exn -> Prog A) :
  forall log,
    run host (try_catch p h) log =
    match run host p log with
    | (log', inr a) => (log', inr a)
    | (log', inl e) => run host (h e) log'
    end.
Proof.
  induction p as [a | e | c k IH]; intros log; simpl; auto.
Qed.

Lemma run_request (host : Host) (m u d p : JSON) (log : list Exchange) :
  run host (SevDeskClient.request m u d p) log =
  ((log ++ [mkExchange (mkConfig m u d p) (backend host log (mkConfig m u d p))])%list,
   request_result (backend host log (mkConfig m u d p))).
Proof.
  unfold SevDeskClient.request. simpl.
  destruct (backend host log (mkConfig m u d p)) as [status body | reason | e]; simpl.
  - destruct (validateStatus status); reflexivity.
  - reflexivity.
  - destruct e; reflexivity.
Qed.

Lemma request_result_succeeded (ex : Exchange) :
  succeeded ex = true -> request_result (got ex) = inr (response_body ex).
Proof.
  unfold succeeded, response_body.
  destruct (got ex) as [status body | reason | e]; simpl; try discriminate.
  intros ->. reflexivity.
Qed.

Lemma request_result_failed (ex : Exchange) :
  succeeded ex = false -> exists e, request_result (got ex) = inl e.
Proof.
  unfold succeeded.
  destruct (got ex) as [status body | reason | e]; simpl.
  - intros ->. eauto.
  - eauto.
  - destruct e; eauto.
Qed.

(** ** Fail-fast programs *)

Lemma FailFast_bind {A B : Type} (p : Prog A) (f : A -> Prog B) :
  FailFast p -> (forall a, FailFast (f a)) -> FailFast (bind p f).
Proof.
  intros Hp Hf. induction Hp as [a | e | c k Hthrow Hk IH]; simpl; auto with failfast.
  constructor; auto.
  intros o e He. rewrite (Hthrow o e He). reflexivity.
Qed.

Lemma FailFast_request (m u d p : JSON) : FailFast (SevDeskClient.request m u d p).
Proof.
  unfold SevDeskClient.request. simpl. constructor.
  - intros o e. destruct o as [status body | reason | x]; simpl.
    + destruct (validateStatus status); simpl; congruence.
    + congruence.
    + destruct x; simpl; congruence.
  - intros o. destruct o as [status body | reason | x]; simpl.
    + destruct (validateStatus status); simpl; constructor.
    + constructor.
    + destruct x; simpl; constructor.
Qed.

#[local] Hint Resolve FailFast_bind FailFast_request : failfast.

Lemma FailFast_destructure (args : JSON) : FailFast (destructure args).
Proof. unfold destructure. destruct (Js.nullish args); constructor. Qed.

Lemma FailFast_created_id (r : JSON) : FailFast (created_id r).
Proof. unfold created_id. destruct (Js.nullish r); constructor. Qed.

Lemma FailFast_position_payload (id : JSON) (t : ParentType) (pos : JSON) :
  FailFast (SevDeskClient.position_payload id t pos).
Proof. unfold SevDeskClient.position_payload. destruct (Js.nullish pos); constructor. Qed.

#[local] Hint Resolve FailFast_destructure FailFast_created_id
  FailFast_position_payload : failfast.

Lemma FailFast_loop (id : JSON) (t : ParentType) (ps : list JSON) :
  forall results, FailFast (SevDeskClient.createPositions_loop id t ps results).
Proof.
  induction ps as [| pos rest IH]; intros results;
    cbn [SevDeskClient.createPositions_loop].
  - constructor.
  - apply FailFast_bind; [auto with failfast | intros payload].
    apply FailFast_bind; [auto with failfast | intros result].
    apply IH.
Qed.

Lemma FailFast_createPositions (id : JSON) (t : ParentType) (positions : JSON) :
  FailFast (SevDeskClient.createPositions id t positions).
Proof.
  unfold SevDeskClient.createPositions. apply FailFast_bind.
  - destruct positions; simpl; constructor.
  - intros items. apply FailFast_loop.
Qed.

#[local] Hint Resolve FailFast_createPositions : failfast.

Lemma FailFast_dispatch (host : Host) (name : string) (args : JSON) :
  FailFast (dispatch host name args).
Proof.
  unfold dispatch.
  repeat match goal with
         | |- FailFast (if ?b then _ else _) => destruct b
         end;
    try constructor;
    unfold raw_request, list_contacts, create_contact, update_contact, update_invoice,
      update_offer, update, list_invoices, get_invoice_positions, create_invoice,
      create_offer;
    repeat (apply FailFast_bind; [auto with failfast | intros ?]);
    try constructor;
    match goal with
    | |- FailFast (if ?b then _ else _) => destruct b
    end;
    repeat (apply FailFast_bind; [auto with failfast | intros ?]);
    constructor.
Qed.

(** In the run of a fail-fast program a failed exchange ends the run, with
    the exception [request] made of it. *)
Lemma run_FailFast {A : Type} (host : Host) (p : Prog A) :
  FailFast p ->
  forall log, exists items,
    fst (run host p log) = (log ++ items)%list /\
    forall k ex, nth_error items k = Some ex -> succeeded ex = false ->
      List.length items = S k /\
      exists e, request_result (got ex) = inl e /\ snd (run host p log) = inl e.
Proof.
  intros Hp. induction Hp as [a | e | c k Hthrow Hk IH]; intros log.
  - exists []. simpl. split; [now rewrite app_nil_r |]. intros [|n] ex; discriminate.
  - exists []. simpl. split; [now rewrite app_nil_r |]. intros [|n] ex; discriminate.
  - simpl. set (o := backend host log c).
    destruct (IH o (log ++ [mkExchange c o])%list) as (items & Hlog & Hfail).
    exists (mkExchange c o :: items). split.
    + rewrite Hlog, <- app_assoc. reflexivity.
    + intros [|n] ex Hnth Hbad; simpl in Hnth.
      * injection Hnth as <-.
        destruct (request_result_failed _ Hbad) as (e & He). simpl in He.
        assert (Hk' : k o = Throw e) by (apply Hthrow; exact He).
        rewrite Hk' in Hlog. simpl in Hlog.
        assert (items = []) as ->.
        { rewrite <- (app_nil_r (log ++ _)%list) in Hlog at 1.
          apply app_inv_head in Hlog. auto. }
        split; [reflexivity |]. exists e. split; [exact He |].
        rewrite Hk'. reflexivity.
      * destruct (Hfail n ex Hnth Hbad) as (Hlen & e & He & Hres).
        split; [simpl; congruence |]. exists e. auto.
Qed.

(** ** The handler as a whole *)

Lemma call_unfold (host : Host) (name : string) (args : JSON) :
  call host name args =
  match run host (dispatch host name args) [] with
  | (log, inr result) => (log, inr result)
  | (log, inl e) => (log, inr (error_content e))
  end.
Proof.
  unfold call, handler. rewrite run_try_catch.
  destruct (run host (dispatch host name args) []) as [log [e | result]]; reflexivity.
Qed.

(** Whatever the tool, a failed exchange is the last one of the call and
    its exception is what the caller is told. *)
Lemma call_fail_fast (host : Host) (name : string) (args : JSON) (k : nat) (ex : Exchange) :
  nth_error (fst (call host name args)) k = Some ex ->
  succeeded ex = false ->
  List.length (fst (call host name args)) = S k /\
  exists e, request_result (got ex) = inl e /\
            snd (call host name args) = inr (error_content e).
Proof.
  intros Hnth Hbad.
  destruct (run_FailFast host _ (FailFast_dispatch host name args) []) as (items & Hlog & Hfail).
  rewrite call_unfold in *.
  destruct (run host (dispatch host name args) []) as [log [e | result]];
    simpl in *; subst log;
    destruct (Hfail k ex Hnth Hbad) as (Hlen & e' & He' & Hres);
    (split; [exact Hlen |]); exists e'; split; auto; congruence.
Qed.

(** A tool that destructures its arguments and issues one request. *)
Lemma run_single_request (host : Host) (args m u d p : JSON) :
  Js.nullish args = false ->
  run host (try_catch
              (destructure args ;;
               response <- SevDeskClient.request m u d p ;;
               Ret (text_content response))
              (fun error => Ret (error_content error))) [] =
  ([mkExchange (mkConfig m u d p) (backend host [] (mkConfig m u d p))],
   match request_result (backend host [] (mkConfig m u d p)) with
   | inl e => inr (error_content e)
   | inr response => inr (text_content response)
   end).
Proof.
  intros Hargs. unfold destructure. rewrite Hargs.
  rewrite run_try_catch. cbn [bind]. rewrite run_bind, run_request.
  destruct (request_result _); reflexivity.
Qed.

Lemma append_assoc (a b c : string) : (a ++ b) ++ c = a ++ (b ++ c).
Proof. induction a as [| x a IH]; simpl; congruence. Qed.

Lemma append_empty_r (a : string) : a ++ "" = a.
Proof. induction a as [| x a IH]; simpl; congruence. Qed.

Lemma not_valid_from_400 (status : Z) : 400 <= status -> validateStatus status = false.
Proof.
  intros H. unfold validateStatus.
  apply andb_false_iff. right. apply Z.ltb_ge. lia.
Qed.

(** ** The claims *)

(** C5. Whatever the operation, an HTTP response with status 400 or above
    is surfaced as an error: [request] throws an Error, the handler returns
    an error-flagged result, and the message holds both the decimal status
    code and the serialized response body. *)
Theorem http_error_status_surfaced (host : Host) (name : string) (args : JSON)
    (ex : Exchange) (status : Z) (body : JSON) :
  In ex (fst (call host name args)) ->
  got ex = Response status body ->
  400 <= status ->
  let msg := "SevDesk API Error: " ++ Js.string_of_Z status ++ " - "
               ++ Js.to_string (Json.stringify body) in
  request_result (got ex) = inl (Error msg) /\
  snd (call host name args) = inr (mkToolResult (JStr ("Error: " ++ msg)) true) /\
  contains (Js.string_of_Z status) msg /\
  contains (Js.to_string (Json.stringify body)) msg.
Proof.
  intros Hin Hgot Hstatus msg.
  assert (Hres : request_result (got ex) = inl (Error msg)).
  { rewrite Hgot. simpl. rewrite (not_valid_from_400 _ Hstatus). reflexivity. }
  assert (Hbad : succeeded ex = false).
  { unfold succeeded. rewrite Hgot. apply not_valid_from_400, Hstatus. }
  destruct (In_nth_error _ _ Hin) as (k & Hnth).
  destruct (call_fail_fast host name args k ex Hnth Hbad) as (_ & e & He & Hcall).
  assert (e = Error msg) as -> by congruence.
  repeat split; auto.
  - exists "SevDesk API Error: ", (" - " ++ Js.to_string (Json.stringify body)).
    reflexivity.
  - exists ("SevDesk API Error: " ++ Js.string_of_Z status ++ " - "), "".
    rewrite append_empty_r. unfold msg.
    rewrite !append_assoc. reflexivity.
Qed.

Lemma http_error_status_surfaced_witness :
  snd (call not_found_host "update_contact"
         (JObj [("contactId", JStr "7"); ("name", JStr "Acme")])) =
  inr (mkToolResult
         (JStr ("Error: " ++ "SevDesk API Error: " ++ Js.string_of_Z 404 ++ " - "
                  ++ Js.to_string (Json.stringify (JObj [("error", JStr "no such contact")]))))
         true).
Proof.
  refine (proj1 (proj2
    (http_error_status_surfaced not_found_host "update_contact"
       (JObj [("contactId", JStr "7"); ("name", JStr "Acme")])
       (mkExchange
          (mkConfig (JStr "PUT") (JStr "/Contact/7") (JObj [("name", JStr "Acme")]) JUndefined)
          (Response 404 (JObj [("error", JStr "no such contact")])))
       404 (JObj [("error", JStr "no such contact")]) _ _ _))).
  - vm_compute. left. reflexivity.
  - reflexivity.
  - lia.
Defined.

(** C6. A name outside the declared tools reaches the default case: the
    switch throws [McpError(ErrorCode.MethodNotFound, "Unknown tool: name")],
    no request is issued, and the caller receives an error-flagged result
    whose text carries the method-not-found code and the name. *)
Theorem unknown_tool_method_not_found (host : Host) (name : string) (args : JSON) :
  ~ In name tools ->
  dispatch host name args = Throw (McpError MethodNotFound ("Unknown tool: " ++ name)) /\
  call host name args =
    ([], inr (mkToolResult (JStr ("Error: MCP error -32601: Unknown tool: " ++ name)) true)).
Proof.
  intros Hnot.
  assert (Hd : dispatch host name args
               = Throw (McpError MethodNotFound ("Unknown tool: " ++ name))).
  { unfold dispatch.
    repeat match goal with
           | |- (if (name =? ?t)%string then _ else _) = _ =>
               destruct (String.eqb_spec name t) as [-> | _];
               [exfalso; apply Hnot; simpl; tauto |]
           end.
    reflexivity. }
  split; [exact Hd |].
  rewrite call_unfold, Hd. reflexivity.
Qed.

Lemma unknown_tool_method_not_found_witness :
  call not_found_host "delete_contact" (JObj [("contactId", JStr "7")]) =
  ([], inr (mkToolResult (JStr "Error: MCP error -32601: Unknown tool: delete_contact") true)).
Proof.
  refine (proj2 (unknown_tool_method_not_found not_found_host "delete_contact"
                   (JObj [("contactId", JStr "7")]) _)).
  simpl. intros H. repeat (destruct H as [H | H]; [discriminate H |]). exact H.
Defined.

(** C7. [create_contact({name: "Acme Corp", categoryId: 3})] issues exactly
    one request, a POST to [/Contact], whose body is exactly the four keys
    objectName, status, category and name: the absent optional fields are
    not sent at all. *)
Theorem create_contact_acme (host : Host) :
  map sent (fst (call host "create_contact"
                   (JObj [("name", JStr "Acme Corp"); ("categoryId", JNum 3)]))) =
  [ mkConfig (JStr "POST") (JStr "/Contact")
      (JObj [ ("objectName", JStr "Contact");
              ("status", JStr "1000");
              ("category", JObj [("id", JNum 3); ("objectName", JStr "Category")]);
              ("name", JStr "Acme Corp") ])
      JUndefined ].
Proof.
  unfold call, handler.
  change (dispatch host "create_contact" ?a) with (create_contact a).
  unfold create_contact. rewrite run_single_request by reflexivity.
  reflexivity.
Qed.

(** C8. [update_contact], [update_invoice] and [update_offer] each issue
    exactly one request, a PUT to the identity path of the resource, whose
    body is the argument object without the id key: every other field is
    there, in place, under its own name and with its own value. *)
Theorem update_passes_fields_through (host : Host) (o : list (string * JSON)) :
  let fields idKey := filter (fun kv => negb (fst kv =? idKey)%string) o in
  let put prefix idKey :=
    mkConfig (JStr "PUT") (JStr (prefix ++ Js.to_string (Js.prop (JObj o) idKey)))
             (JObj (fields idKey)) JUndefined in
  map sent (fst (call host "update_contact" (JObj o))) = [put "/Contact/" "contactId"] /\
  map sent (fst (call host "update_invoice" (JObj o))) = [put "/Invoice/" "invoiceId"] /\
  map sent (fst (call host "update_offer" (JObj o))) = [put "/Order/" "orderId"] /\
  forall idKey k v, In (k, v) (fields idKey) <-> In (k, v) o /\ k <> idKey.
Proof.
  intros fields put. unfold call, handler.
  change (dispatch host "update_contact" ?a) with (update "/Contact/" "contactId" a).
  change (dispatch host "update_invoice" ?a) with (update "/Invoice/" "invoiceId" a).
  change (dispatch host "update_offer" ?a) with (update "/Order/" "orderId" a).
  unfold update. rewrite !run_single_request by reflexivity.
  split; [reflexivity |]. split; [reflexivity |]. split; [reflexivity |].
  intros idKey k v. unfold fields. rewrite filter_In. simpl.
  rewrite negb_true_iff, String.eqb_neq. reflexivity.
Qed.

(** C10. When the HTTP layer fails without a response object, [request]
    throws an Error whose message is exactly
    "SevDesk API Error: undefined - undefined": the prefix is there, and
    the word undefined stands where the status and the body would be. *)
Theorem no_response_message (host : Host) (m u d p : JSON) (log : list Exchange) :
  carries_no_response (backend host log (mkConfig m u d p)) = true ->
  snd (run host (SevDeskClient.request m u d p) log) =
  inl (Error "SevDesk API Error: undefined - undefined").
Proof.
  intros H. rewrite run_request. simpl.
  destruct (backend host log (mkConfig m u d p)) as [status body | reason | e];
    simpl in *; try discriminate; try reflexivity.
  destruct e as [x | x | c x | x [r |]]; try discriminate. reflexivity.
Qed.

Lemma no_response_message_witness :
  snd (run offline_host
         (SevDeskClient.request (JStr "GET") (JStr "/Contact") JUndefined JUndefined) []) =
  inl (Error "SevDesk API Error: undefined - undefined").
Proof.
  apply (no_response_message offline_host (JStr "GET") (JStr "/Contact") JUndefined JUndefined []).
  reflexivity.
Defined.

(** ** Creating a document and its positions *)

Lemma run_extends {A : Type} (host : Host) (p : Prog A) :
  forall log, exists items, fst (run host p log) = (log ++ items)%list.
Proof.
  induction p as [a | e | c k IH]; intros log; simpl.
  - exists []. now rewrite app_nil_r.
  - exists []. now rewrite app_nil_r.
  - destruct (IH (backend host log c) (log ++ [mkExchange c (backend host log c)])%list)
      as (items & H).
    exists (mkExchange c (backend host log c) :: items).
    rewrite H, <- app_assoc. reflexivity.
Qed.

Lemma app_same_head {A : Type} (l a b : list A) : (l ++ a = l ++ b)%list -> a = b.
Proof. apply app_inv_head. Qed.

Lemma app_nil_tail {A : Type} (l a : list A) : (l = l ++ a)%list -> a = [].
Proof.
  intros H. rewrite <- (app_nil_r l) in H at 1. apply app_inv_head in H. auto.
Qed.

(** One turn of the loop on a position that is an object. *)
Lemma run_loop_cons (host : Host) (id : JSON) (t : ParentType)
    (pos : JSON) (rest results : list JSON) (log : list Exchange) :
  Js.nullish pos = false ->
  let c := position_post id t pos in
  let ex := mkExchange c (backend host log c) in
  run host (SevDeskClient.createPositions_loop id t (pos :: rest) results) log =
  match request_result (got ex) with
  | inl e => ((log ++ [ex])%list, inl e)
  | inr result =>
      run host (SevDeskClient.createPositions_loop id t rest (results ++ [result]))
          (log ++ [ex])%list
  end.
Proof.
  intros Hpos c ex. subst ex c. unfold position_post.
  cbn [SevDeskClient.createPositions_loop].
  unfold SevDeskClient.position_payload. rewrite Hpos. cbn [bind].
  rewrite run_bind, run_request. cbn [got].
  destruct (request_result _); reflexivity.
Qed.

Lemma run_loop_nullish (host : Host) (id : JSON) (t : ParentType)
    (pos : JSON) (rest results : list JSON) (log : list Exchange) :
  Js.nullish pos = true ->
  exists e, run host (SevDeskClient.createPositions_loop id t (pos :: rest) results) log
            = (log, inl e).
Proof.
  intros Hpos. cbn [SevDeskClient.createPositions_loop].
  unfold SevDeskClient.position_payload. rewrite Hpos. cbn [bind run]. eauto.
Qed.

(** The requests of the loop are those of a prefix of the positions, in
    input order. *)
Lemma run_loop_prefix (host : Host) (id : JSON) (t : ParentType) (ps : list JSON) :
  forall results log items,
    fst (run host (SevDeskClient.createPositions_loop id t ps results) log)
      = (log ++ items)%list ->
    map sent items = map (position_post id t) (firstn (List.length items) ps).
Proof.
  induction ps as [| pos rest IH]; intros results log items Hlog.
  - simpl in Hlog. apply app_nil_tail in Hlog. subst items. reflexivity.
  - destruct (Js.nullish pos) eqn:Hpos.
    + destruct (run_loop_nullish host id t pos rest results log Hpos) as (e & Hrun).
      rewrite Hrun in Hlog. simpl in Hlog. apply app_nil_tail in Hlog.
      subst items. reflexivity.
    + rewrite (run_loop_cons host id t pos rest results log Hpos) in Hlog.
      simpl got in Hlog.
      destruct (request_result (backend host log (position_post id t pos))) as [e | r].
      * simpl in Hlog. apply app_same_head in Hlog. subst items. reflexivity.
      * destruct (run_extends host
                    (SevDeskClient.createPositions_loop id t rest (results ++ [r]))
                    (log ++ [mkExchange (position_post id t pos)
                                        (backend host log (position_post id t pos))])%list)
          as (items' & Hext).
        assert (Hitems : items = mkExchange (position_post id t pos)
                                   (backend host log (position_post id t pos)) :: items').
        { rewrite Hext, <- app_assoc in Hlog. apply app_same_head in Hlog.
          symmetry. exact Hlog. }
        subst items. simpl. f_equal. eapply IH. exact Hext.
Qed.

(** When every exchange succeeds, the loop posts every position and
    returns the response bodies in the same order. *)
Lemma run_loop_all_ok (host : Host) (id : JSON) (t : ParentType) (ps : list JSON) :
  forall results log items,
    fst (run host (SevDeskClient.createPositions_loop id t ps results) log)
      = (log ++ items)%list ->
    Forall (fun pos => Js.nullish pos = false) ps ->
    Forall (fun ex => succeeded ex = true) items ->
    map sent items = map (position_post id t) ps /\
    snd (run host (SevDeskClient.createPositions_loop id t ps results) log)
      = inr (results ++ map response_body items)%list.
Proof.
  induction ps as [| pos rest IH]; intros results log items Hlog Hps Hok.
  - simpl in *. apply app_nil_tail in Hlog. subst items.
    simpl. rewrite app_nil_r. auto.
  - inversion Hps as [| ? ? Hpos Hrest]; subst.
    rewrite (run_loop_cons host id t pos rest results log Hpos) in *.
    set (ex := mkExchange (position_post id t pos)
                          (backend host log (position_post id t pos))) in *.
    destruct (request_result (got ex)) as [e | r] eqn:Hres.
    + simpl in Hlog. apply app_same_head in Hlog. subst items.
      inversion Hok as [| ? ? Hex _]; subst.
      rewrite (request_result_succeeded ex Hex) in Hres. discriminate.
    + destruct (run_extends host
                  (SevDeskClient.createPositions_loop id t rest (results ++ [r]))
                  (log ++ [ex])%list) as (items' & Hext).
      assert (Hitems : items = ex :: items').
      { rewrite Hext, <- app_assoc in Hlog. apply app_same_head in Hlog.
        symmetry. exact Hlog. }
      subst items. inversion Hok as [| ? ? Hex Hok']; subst.
      destruct (IH (results ++ [r])%list (log ++ [ex])%list items' Hext Hrest Hok')
        as (Hsent & Hsnd).
      rewrite (request_result_succeeded ex Hex) in Hres. injection Hres as <-.
      split.
      * simpl. f_equal. exact Hsent.
      * rewrite Hsnd, <- app_assoc. reflexivity.
Qed.

(** The two document tools have the same flow. *)
Lemma dispatch_document (host : Host) (t : ParentType) (args : JSON) :
  dispatch host (document_tool t) args =
  (destructure args ;;
   response <- SevDeskClient.request (method (document_post host t args))
                 (url (document_post host t args)) (data (document_post host t args))
                 (params (document_post host t args)) ;;
   id <- created_id response ;;
   if wants_positions host (Js.prop args "positions") id
   then
     results <- SevDeskClient.createPositions id t (Js.prop args "positions") ;;
     Ret (text_content (composite t response results))
   else Ret (text_content response)).
Proof. destruct t; reflexivity. Qed.

(** The call of a document tool, step by step. *)
Lemma call_document (host : Host) (t : ParentType) (args : JSON) :
  Js.nullish args = false ->
  let doc := mkExchange (document_post host t args)
                        (backend host [] (document_post host t args)) in
  call host (document_tool t) args =
  match request_result (got doc) with
  | inl e => ([doc], inr (error_content e))
  | inr response =>
      if Js.nullish response
      then ([doc], inr (error_content (null_response_error response)))
      else if wants_positions host (Js.prop args "positions") (resolved_id response)
      then
        match run host (SevDeskClient.createPositions (resolved_id response) t
                          (Js.prop args "positions")) [doc] with
        | (log, inl e) => (log, inr (error_content e))
        | (log, inr results) => (log, inr (text_content (composite t response results)))
        end
      else ([doc], inr (text_content response))
  end.
Proof.
  intros Hargs doc. rewrite call_unfold, dispatch_document.
  unfold destructure. rewrite Hargs. cbn [bind].
  rewrite run_bind, run_request.
  replace (mkConfig (method (document_post host t args)) (url (document_post host t args))
             (data (document_post host t args)) (params (document_post host t args)))
    with (document_post host t args) by (destruct t; reflexivity).
  fold doc. simpl got.
  destruct (request_result (backend host [] (document_post host t args))) as [e | response];
    [reflexivity |].
  unfold created_id, null_response_error.
  destruct (Js.nullish response); [reflexivity |]. cbn [bind].
  destruct (wants_positions host (Js.prop args "positions") (resolved_id response));
    [| reflexivity].
  rewrite run_bind. cbn [app].
  destruct (run host _ [doc]) as [log [e | results]]; reflexivity.
Qed.

Lemma wants_positions_array (host : Host) (ps : list JSON) (id : JSON) :
  wants_positions host (JArr ps) id = negb (Nat.eqb (List.length ps) 0) && Js.truthy id.
Proof.
  unfold wants_positions. simpl. destruct ps; reflexivity.
Qed.

Lemma createPositions_array (id : JSON) (t : ParentType) (ps : list JSON) :
  SevDeskClient.createPositions id t (JArr ps) = SevDeskClient.createPositions_loop id t ps [].
Proof. reflexivity. Qed.

Lemma resolved_id_nullish (response : JSON) :
  Js.truthy (resolved_id response) = true -> Js.nullish response = false.
Proof. destruct response; simpl; congruence. Qed.

Lemma succeeded_response (c : Config) (status : Z) (body : JSON) :
  succeeded (mkExchange c (Response status body)) = validateStatus status.
Proof. reflexivity. Qed.

(** C1, counterexample to the unconditional reading: with two positions, a document response that
    yields the id 42 and a backend that rejects the first position, the
    call issues one position POST, not two, and returns an error. *)
Lemma create_invoice_rejected_position_stops :
  ~ (forall (host : Host) (o : list (string * JSON)) (ps : list JSON)
            (status : Z) (response : JSON),
       Js.prop (JObj o) "positions" = JArr ps ->
       ps <> [] ->
       backend host [] (document_post host Invoice (JObj o)) = Response status response ->
       validateStatus status = true ->
       Js.truthy (resolved_id response) = true ->
       List.length (fst (call host "create_invoice" (JObj o))) = S (List.length ps)).
Proof.
  intros H.
  specialize (H rejecting_host [("contactId", JStr "5"); ("positions", JArr two_positions)]
                two_positions 201 (JObj [("id", JStr "42")])
                eq_refl ltac:(discriminate) eq_refl eq_refl eq_refl).
  vm_compute in H. discriminate H.
Qed.

(** C1, as the code has it. [create_invoice] with a non-empty list of positions and a
    document POST answered with a response that yields an id: the log
    starts with the document POST and continues with the POSTs of the
    first positions, in input order, each carrying the id taken from the
    document response. When the positions are objects and every position
    request succeeds, there is one POST per position and the [positions]
    array of the composite result lists the response bodies in input
    order. *)
Theorem create_invoice_positions_in_order (host : Host) (o : list (string * JSON))
    (ps : list JSON) (status : Z) (response : JSON) :
  let args := JObj o in
  let post := mkConfig (JStr "POST") (JStr "/Invoice") (create_invoice_payload host args)
                       JUndefined in
  Js.prop args "positions" = JArr ps ->
  ps <> [] ->
  backend host [] post = Response status response ->
  validateStatus status = true ->
  Js.truthy (resolved_id response) = true ->
  exists items,
    fst (call host "create_invoice" args) = mkExchange post (Response status response) :: items /\
    map sent items =
      map (position_post (resolved_id response) Invoice) (firstn (List.length items) ps) /\
    (Forall (fun pos => Js.nullish pos = false) ps ->
     Forall (fun ex => succeeded ex = true) items ->
     List.length items = List.length ps /\
     map sent items = map (position_post (resolved_id response) Invoice) ps /\
     snd (call host "create_invoice" args) =
       inr (text_content (JObj [ ("invoice", response);
                                 ("positions", JArr (map response_body items)) ]))).
Proof.
  intros args post Hps Hne Hdoc Hvalid Hid.
  pose proof (call_document host Invoice args eq_refl) as Hcall.
  cbn [document_tool document_post] in Hcall. fold post in Hcall.
  cbn [got] in Hcall. rewrite Hdoc in Hcall. cbn [request_result] in Hcall.
  rewrite Hvalid, (resolved_id_nullish _ Hid), Hps, wants_positions_array, Hid in Hcall.
  replace (negb (Nat.eqb (List.length ps) 0)) with true in Hcall
    by (destruct ps; [contradiction | reflexivity]).
  cbn [andb] in Hcall. rewrite createPositions_array in Hcall.
  destruct (run_extends host
              (SevDeskClient.createPositions_loop (resolved_id response) Invoice ps [])
              [mkExchange post (Response status response)]) as (items & Hext).
  exists items. split; [| split].
  - rewrite Hcall.
    destruct (run host _ [mkExchange post (Response status response)]) as [log [e | rs]];
      exact Hext.
  - eapply run_loop_prefix. exact Hext.
  - intros Hobj Hitems.
    destruct (run_loop_all_ok host (resolved_id response) Invoice ps [] _ items Hext Hobj Hitems)
      as (Hsent & Hsnd).
    split; [| split].
    + rewrite <- (length_map sent), Hsent, length_map. reflexivity.
    + exact Hsent.
    + rewrite Hcall.
      destruct (run host _ [mkExchange post (Response status response)]) as [log [e | rs]];
        cbn [snd] in *; [discriminate |].
      injection Hsnd as ->. reflexivity.
Qed.

Lemma create_invoice_positions_in_order_witness :
  let log := fst (call created_host "create_invoice"
                    (JObj [("contactId", JStr "5"); ("positions", JArr two_positions)])) in
  List.length (tl log) = 2%nat /\
  map sent (tl log) = map (position_post (JNum 100) Invoice) two_positions /\
  snd (call created_host "create_invoice"
         (JObj [("contactId", JStr "5"); ("positions", JArr two_positions)])) =
    inr (text_content
           (JObj [ ("invoice", JObj [("objects", JObj [("id", JNum 100)])]);
                   ("positions", JArr (map response_body (tl log))) ])).
Proof.
  intros log.
  destruct (create_invoice_positions_in_order created_host
              [("contactId", JStr "5"); ("positions", JArr two_positions)]
              two_positions 201 (JObj [("objects", JObj [("id", JNum 100)])])
              eq_refl ltac:(discriminate) eq_refl eq_refl eq_refl)
    as (items & Hlog & _ & Hall).
  assert (Hitems : items = tl log) by (unfold log; rewrite Hlog; reflexivity).
  rewrite Hitems in Hall. apply Hall.
  - repeat constructor.
  - vm_compute. repeat constructor.
Defined.

(** C2. [create_invoice] and [create_offer] with a list of positions: when
    the k-th position request fails, the log ends there. It holds the
    document POST and the POSTs of the first k positions and nothing else
    (no later position, no request that undoes the document or an earlier
    position), and the call returns an error-flagged result made of the
    exception of the failed request. *)
Theorem position_failure_aborts (host : Host) (t : ParentType) (o : list (string * JSON))
    (ps : list JSON) (k : nat) (ex : Exchange) :
  let args := JObj o in
  Js.prop args "positions" = JArr ps ->
  nth_error (fst (call host (document_tool t) args)) k = Some ex ->
  (1 <= k)%nat ->
  succeeded ex = false ->
  (k <= List.length ps)%nat /\
  List.length (fst (call host (document_tool t) args)) = S k /\
  (exists doc items,
     fst (call host (document_tool t) args) = doc :: items /\
     sent doc = document_post host t args /\
     map sent items =
       map (position_post (resolved_id (response_body doc)) t) (firstn k ps)) /\
  exists e,
    request_result (got ex) = inl e /\
    snd (call host (document_tool t) args) = inr (error_content e) /\
    isError (error_content e) = true.
Proof.
  intros args Hps Hnth Hk Hbad.
  destruct (call_fail_fast host (document_tool t) args k ex Hnth Hbad)
    as (Hlen & e & He & Hres).
  pose proof (call_document host t args eq_refl) as Hcall. cbn [got] in Hcall.
  set (doc := mkExchange (document_post host t args)
                         (backend host [] (document_post host t args))) in *.
  assert (Hshape : exists items,
             fst (call host (document_tool t) args) = doc :: items /\
             map sent items =
               map (position_post (resolved_id (response_body doc)) t)
                   (firstn (List.length items) ps)).
  { destruct (request_result (backend host [] (document_post host t args)))
      as [e0 | response] eqn:Hdoc.
    - rewrite Hcall in Hlen. simpl in Hlen. lia.
    - destruct (Js.nullish response); [rewrite Hcall in Hlen; simpl in Hlen; lia |].
      destruct (wants_positions host (Js.prop args "positions") (resolved_id response));
        [| rewrite Hcall in Hlen; simpl in Hlen; lia].
      rewrite Hps, createPositions_array in Hcall.
      destruct (run_extends host
                  (SevDeskClient.createPositions_loop (resolved_id response) t ps [])
                  [doc]) as (items & Hext).
      exists items.
      assert (Hbody : response_body doc = response).
      { unfold response_body. subst doc. cbn [got].
        destruct (backend host [] (document_post host t args)) as [s b | r | x];
          simpl in Hdoc.
        - destruct (validateStatus s); congruence.
        - discriminate.
        - destruct x; discriminate. }
      rewrite Hbody. split.
      + rewrite Hcall. destruct (run host _ [doc]) as [log [e1 | rs]]; exact Hext.
      + eapply run_loop_prefix. exact Hext. }
  destruct Hshape as (items & Hlog & Hsent).
  assert (Hitems : List.length items = k) by (rewrite Hlog in Hlen; simpl in Hlen; lia).
  rewrite Hitems in Hsent.
  split.
  { rewrite <- Hitems, <- (length_map sent), Hsent, length_map, length_firstn. lia. }
  split; [exact Hlen |].
  split; [exists doc, items; auto |].
  exists e. auto.
Qed.

Lemma position_failure_aborts_witness :
  List.length (fst (call failing_host "create_offer"
                      (JObj [("contactId", JStr "5"); ("positions", JArr three_positions)])))
    = 3%nat /\
  exists e,
    snd (call failing_host "create_offer"
           (JObj [("contactId", JStr "5"); ("positions", JArr three_positions)]))
      = inr (error_content e) /\
    isError (error_content e) = true.
Proof.
  destruct (position_failure_aborts failing_host Order
              [("contactId", JStr "5"); ("positions", JArr three_positions)]
              three_positions 2
              (mkExchange
                 (position_post (JStr "42") Order (JObj [("name", JStr "b"); ("price", JNum 2)]))
                 (Response 500 (JObj [("error", JStr "boom")])))
              eq_refl eq_refl (le_S 1 1 (le_n 1)) eq_refl)
    as (_ & Hlen & _ & e & _ & Hres & Herr).
  split; [exact Hlen |]. exists e. split; [exact Hres | exact Herr].
Defined.

(** C3. The payload of a position: the parent Reference under [invoice] or
    [order] with the matching objectName, quantity (1 when not supplied),
    price and name from the input, the unity Reference (id "1" when unityId
    is not supplied), taxRate (0 when not supplied), [mapAll: true], and
    [text] only when the position supplies one. And the example: for
    [create_offer({contactId: "5", positions: [{name: "Widget", price: 10}]})]
    the adapter posts the order with orderType "AN", then exactly one
    position that refers to the id taken from the order response.
    Kind by kind and letter by letter: a position of an invoice is posted
    to [/InvoicePos] with the Reference [{id, objectName: "Invoice"}] under
    the key [invoice], a position of an order to [/OrderPos] with
    [{id, objectName: "Order"}] under the key [order]; and [create_invoice]
    on the same arguments posts its one position the invoice way. *)
Theorem position_payload_shape :
  (forall (parentId : JSON) (t : ParentType) (pos : JSON),
     let payload := SevDeskClient.position_object parentId t pos in
     keys payload =
       ([ SevDeskClient.parentKey t; "quantity"; "price"; "name"; "unity"; "taxRate"; "mapAll" ]
          ++ (if Js.truthy (Js.prop pos "text") then ["text"] else []))%list /\
     Js.prop payload (SevDeskClient.parentKey t) =
       JObj [("id", parentId); ("objectName", JStr (SevDeskClient.objectName t))] /\
     Js.prop payload "quantity" = Js.or_else (Js.prop pos "quantity") (JNum 1) /\
     (Js.prop pos "quantity" = JUndefined -> Js.prop payload "quantity" = JNum 1) /\
     Js.prop payload "price" = Js.prop pos "price" /\
     Js.prop payload "name" = Js.prop pos "name" /\
     Js.prop payload "unity" =
       JObj [("id", Js.or_else (Js.prop pos "unityId") (JStr "1")); ("objectName", JStr "Unity")] /\
     (Js.prop pos "unityId" = JUndefined ->
      Js.prop payload "unity" = JObj [("id", JStr "1"); ("objectName", JStr "Unity")]) /\
     Js.prop payload "taxRate" = Js.or_else (Js.prop pos "taxRate") (JNum 0) /\
     (Js.prop pos "taxRate" = JUndefined -> Js.prop payload "taxRate" = JNum 0) /\
     Js.prop payload "mapAll" = JBool true /\
     (In "text" (keys payload) ->
      Js.prop pos "text" <> JUndefined /\ Js.prop payload "text" = Js.prop pos "text")) /\
  (forall (host : Host) (status : Z) (response : JSON),
     let order_post :=
       mkConfig (JStr "POST") (JStr "/Order")
         (JObj [ ("contact", JObj [("id", JStr "5"); ("objectName", JStr "Contact")]);
                 ("orderType", JStr "AN");
                 ("status", JStr "100");
                 ("orderDate", JStr (now host));
                 ("header", JStr "Offer");
                 ("mapAll", JBool true) ])
         JUndefined in
     backend host [] order_post = Response status response ->
     validateStatus status = true ->
     Js.truthy (resolved_id response) = true ->
     map sent (fst (call host "create_offer" widget_offer)) =
       [ order_post;
         mkConfig (JStr "POST") (JStr "/OrderPos")
           (JObj [ ("order", JObj [("id", resolved_id response); ("objectName", JStr "Order")]);
                   ("quantity", JNum 1);
                   ("price", JNum 10);
                   ("name", JStr "Widget");
                   ("unity", JObj [("id", JStr "1"); ("objectName", JStr "Unity")]);
                   ("taxRate", JNum 0);
                   ("mapAll", JBool true) ])
           JUndefined ]) /\
  (forall (host : Host) (parentId pos : JSON),
     Js.nullish pos = false ->
     let common :=
       ([ ("quantity", Js.or_else (Js.prop pos "quantity") (JNum 1));
          ("price", Js.prop pos "price");
          ("name", Js.prop pos "name");
          ("unity",
            JObj [("id", Js.or_else (Js.prop pos "unityId") (JStr "1"));
                  ("objectName", JStr "Unity")]);
          ("taxRate", Js.or_else (Js.prop pos "taxRate") (JNum 0));
          ("mapAll", JBool true) ]
          ++ (if Js.truthy (Js.prop pos "text") then [("text", Js.prop pos "text")] else []))%list in
     map sent (fst (run host (SevDeskClient.createPositions parentId Invoice (JArr [pos])) [])) =
       [ mkConfig (JStr "POST") (JStr "/InvoicePos")
           (JObj (("invoice", JObj [("id", parentId); ("objectName", JStr "Invoice")]) :: common))
           JUndefined ] /\
     map sent (fst (run host (SevDeskClient.createPositions parentId Order (JArr [pos])) [])) =
       [ mkConfig (JStr "POST") (JStr "/OrderPos")
           (JObj (("order", JObj [("id", parentId); ("objectName", JStr "Order")]) :: common))
           JUndefined ]) /\
  (forall (host : Host) (status : Z) (response : JSON),
     let invoice_post :=
       mkConfig (JStr "POST") (JStr "/Invoice")
         (JObj [ ("contact", JObj [("id", JStr "5"); ("objectName", JStr "Contact")]);
                 ("invoiceType", JStr "RE");
                 ("status", JStr "100");
                 ("invoiceDate", JStr (now host));
                 ("header", JStr "Invoice");
                 ("currency", JStr "EUR");
                 ("taxType", JStr "default");
                 ("mapAll", JBool true) ])
         JUndefined in
     backend host [] invoice_post = Response status response ->
     validateStatus status = true ->
     Js.truthy (resolved_id response) = true ->
     map sent (fst (call host "create_invoice" widget_offer)) =
       [ invoice_post;
         mkConfig (JStr "POST") (JStr "/InvoicePos")
           (JObj [ ("invoice",
                     JObj [("id", resolved_id response); ("objectName", JStr "Invoice")]);
                   ("quantity", JNum 1);
                   ("price", JNum 10);
                   ("name", JStr "Widget");
                   ("unity", JObj [("id", JStr "1"); ("objectName", JStr "Unity")]);
                   ("taxRate", JNum 0);
                   ("mapAll", JBool true) ])
           JUndefined ]).
Proof.
  split; [| split; [| split]].
  - intros parentId t pos payload. subst payload.
    unfold SevDeskClient.position_object.
    destruct (Js.truthy (Js.prop pos "text")) eqn:Htext; destruct t;
      cbn [Js.set SevDeskClient.parentKey SevDeskClient.objectName keys map fst app
           Js.prop Js.lookup String.eqb Ascii.eqb Bool.eqb];
      (split; [reflexivity |]); (split; [reflexivity |]); (split; [reflexivity |]);
      (split; [intros ->; reflexivity |]);
      (split; [reflexivity |]); (split; [reflexivity |]); (split; [reflexivity |]);
      (split; [intros ->; reflexivity |]);
      (split; [reflexivity |]);
      (split; [intros ->; reflexivity |]);
      (split; [reflexivity |]).
    1,2: intros _; split; [intros Hu; rewrite Hu in Htext; discriminate | reflexivity].
    1,2: intros H; simpl in H;
         repeat (destruct H as [H | H]; [discriminate H |]); contradiction.
  - intros host status response order_post Hdoc Hvalid Hid.
    pose proof (call_document host Order widget_offer eq_refl) as Hcall.
    cbn [document_tool] in Hcall.
    change (document_post host Order widget_offer) with order_post in Hcall.
    cbn [got] in Hcall. rewrite Hdoc in Hcall. cbn [request_result] in Hcall.
    rewrite Hvalid, (resolved_id_nullish _ Hid) in Hcall.
    change (Js.prop widget_offer "positions")
      with (JArr [JObj [("name", JStr "Widget"); ("price", JNum 10)]]) in Hcall.
    rewrite wants_positions_array, Hid, createPositions_array in Hcall.
    cbn [List.length Nat.eqb negb andb] in Hcall.
    rewrite run_loop_cons in Hcall by reflexivity.
    rewrite Hcall.
    destruct (request_result _); reflexivity.
  - intros host parentId pos Hpos common. subst common.
    rewrite !createPositions_array, !run_loop_cons by exact Hpos.
    unfold position_post, SevDeskClient.position_object. cbn [got].
    destruct (Js.truthy (Js.prop pos "text")); split;
      destruct (request_result _); reflexivity.
  - intros host status response invoice_post Hdoc Hvalid Hid.
    pose proof (call_document host Invoice widget_offer eq_refl) as Hcall.
    cbn [document_tool] in Hcall.
    change (document_post host Invoice widget_offer) with invoice_post in Hcall.
    cbn [got] in Hcall. rewrite Hdoc in Hcall. cbn [request_result] in Hcall.
    rewrite Hvalid, (resolved_id_nullish _ Hid) in Hcall.
    change (Js.prop widget_offer "positions")
      with (JArr [JObj [("name", JStr "Widget"); ("price", JNum 10)]]) in Hcall.
    rewrite wants_positions_array, Hid, createPositions_array in Hcall.
    cbn [List.length Nat.eqb negb andb] in Hcall.
    rewrite run_loop_cons in Hcall by reflexivity.
    rewrite Hcall.
    destruct (request_result _); reflexivity.
Qed.

Lemma position_payload_shape_witness :
  map sent (fst (call order_host "create_offer" widget_offer)) =
  [ mkConfig (JStr "POST") (JStr "/Order")
      (JObj [ ("contact", JObj [("id", JStr "5"); ("objectName", JStr "Contact")]);
              ("orderType", JStr "AN");
              ("status", JStr "100");
              ("orderDate", JStr "2026-01-01T00:00:00.000Z");
              ("header", JStr "Offer");
              ("mapAll", JBool true) ])
      JUndefined;
    mkConfig (JStr "POST") (JStr "/OrderPos")
      (JObj [ ("order", JObj [("id", JStr "77"); ("objectName", JStr "Order")]);
              ("quantity", JNum 1);
              ("price", JNum 10);
              ("name", JStr "Widget");
              ("unity", JObj [("id", JStr "1"); ("objectName", JStr "Unity")]);
              ("taxRate", JNum 0);
              ("mapAll", JBool true) ])
      JUndefined ] /\
  map sent (fst (call order_host "create_invoice" widget_offer)) =
  [ mkConfig (JStr "POST") (JStr "/Invoice")
      (JObj [ ("contact", JObj [("id", JStr "5"); ("objectName", JStr "Contact")]);
              ("invoiceType", JStr "RE");
              ("status", JStr "100");
              ("invoiceDate", JStr "2026-01-01T00:00:00.000Z");
              ("header", JStr "Invoice");
              ("currency", JStr "EUR");
              ("taxType", JStr "default");
              ("mapAll", JBool true) ])
      JUndefined;
    mkConfig (JStr "POST") (JStr "/InvoicePos")
      (JObj [ ("invoice", JObj [("id", JStr "77"); ("objectName", JStr "Invoice")]);
              ("quantity", JNum 1);
              ("price", JNum 10);
              ("name", JStr "Widget");
              ("unity", JObj [("id", JStr "1"); ("objectName", JStr "Unity")]);
              ("taxRate", JNum 0);
              ("mapAll", JBool true) ])
      JUndefined ] /\
  map sent (fst (run order_host
                   (SevDeskClient.createPositions (JStr "77") Invoice
                      (JArr [JObj [("name", JStr "Widget"); ("price", JNum 10);
                                   ("text", JStr "blue")]])) [])) =
  [ mkConfig (JStr "POST") (JStr "/InvoicePos")
      (JObj [ ("invoice", JObj [("id", JStr "77"); ("objectName", JStr "Invoice")]);
              ("quantity", JNum 1);
              ("price", JNum 10);
              ("name", JStr "Widget");
              ("unity", JObj [("id", JStr "1"); ("objectName", JStr "Unity")]);
              ("taxRate", JNum 0);
              ("mapAll", JBool true);
              ("text", JStr "blue") ])
      JUndefined ].
Proof.
  split; [| split].
  - apply (proj1 (proj2 position_payload_shape) order_host 201
             (JObj [("objects", JObj [("id", JStr "77")])])); reflexivity.
  - apply (proj2 (proj2 (proj2 position_payload_shape)) order_host 201
             (JObj [("objects", JObj [("id", JStr "77")])])); reflexivity.
  - exact (proj1 (proj1 (proj2 (proj2 position_payload_shape)) order_host (JStr "77")
                    (JObj [("name", JStr "Widget"); ("price", JNum 10); ("text", JStr "blue")])
                    eq_refl)).
Defined.

(** C4, counterexample to the unconditional reading: with a non-empty list of positions and a document
    response that yields the id 42, a backend that rejects the position
    makes the call return an error-flagged result, neither the composite
    nor the bare response. *)
Lemma create_invoice_rejected_position_no_composite :
  ~ (forall (host : Host) (o : list (string * JSON)) (ps : list JSON)
            (status : Z) (response : JSON),
       Js.prop (JObj o) "positions" = JArr ps ->
       ps <> [] ->
       backend host [] (document_post host Invoice (JObj o)) = Response status response ->
       validateStatus status = true ->
       Js.truthy (resolved_id response) = true ->
       exists results,
         snd (call host "create_invoice" (JObj o)) =
           inr (text_content (JObj [("invoice", response); ("positions", JArr results)]))).
Proof.
  intros H.
  destruct (H rejecting_host [("contactId", JStr "5"); ("positions", JArr two_positions)]
              two_positions 201 (JObj [("id", JStr "42")])
              eq_refl ltac:(discriminate) eq_refl eq_refl eq_refl) as (results & Hres).
  vm_compute in Hres. discriminate Hres.
Qed.

(** C4, as the code has it. The result of [create_invoice] once the document POST has been
    answered with a response: without a [positions] argument it is the
    serialized response as it came, with nothing wrapped around it. With a
    list of positions it is the composite [{ invoice, positions }] when the
    list is non-empty and the response yields an id (one request per
    position follows the document POST), and the bare response, with no
    request after the document POST, when the list is empty or no id could
    be resolved. *)
Theorem create_invoice_result_shape (host : Host) (o : list (string * JSON))
    (status : Z) (response : JSON) :
  let args := JObj o in
  let post := mkConfig (JStr "POST") (JStr "/Invoice") (create_invoice_payload host args)
                       JUndefined in
  let doc := mkExchange post (Response status response) in
  let log := fst (call host "create_invoice" args) in
  let result := snd (call host "create_invoice" args) in
  backend host [] post = Response status response ->
  validateStatus status = true ->
  Js.nullish response = false ->
  (Js.prop args "positions" = JUndefined ->
   log = [doc] /\ result = inr (text_content response)) /\
  (forall ps,
     Js.prop args "positions" = JArr ps ->
     (ps <> [] /\ Js.truthy (resolved_id response) = true ->
      Forall (fun pos => Js.nullish pos = false) ps ->
      Forall (fun ex => succeeded ex = true) log ->
      exists items,
        log = doc :: items /\
        List.length items = List.length ps /\
        result = inr (text_content (JObj [ ("invoice", response);
                                           ("positions", JArr (map response_body items)) ]))) /\
     (ps = [] \/ Js.truthy (resolved_id response) = false ->
      log = [doc] /\ result = inr (text_content response))).
Proof.
  intros args post doc log result Hdoc Hvalid Hresp.
  pose proof (call_document host Invoice args eq_refl) as Hcall.
  cbn [document_tool document_post] in Hcall. fold post in Hcall.
  cbn [got] in Hcall. rewrite Hdoc in Hcall. cbn [request_result] in Hcall.
  rewrite Hvalid, Hresp in Hcall. fold doc in Hcall.
  split.
  - intros Hnone. rewrite Hnone in Hcall.
    change (wants_positions host JUndefined (resolved_id response)) with false in Hcall.
    subst log result. rewrite Hcall. auto.
  - intros ps Hps. rewrite Hps, wants_positions_array in Hcall. split.
    + intros [Hne Hid] Hobj Hok. rewrite Hid in Hcall.
      replace (negb (Nat.eqb (List.length ps) 0)) with true in Hcall
        by (destruct ps; [contradiction | reflexivity]).
      cbn [andb] in Hcall. rewrite createPositions_array in Hcall.
      destruct (run_extends host
                  (SevDeskClient.createPositions_loop (resolved_id response) Invoice ps [])
                  [doc]) as (items & Hext).
      assert (Hlog : log = doc :: items).
      { subst log. rewrite Hcall.
        destruct (run host _ [doc]) as [l [e | rs]]; exact Hext. }
      rewrite Hlog in Hok. inversion Hok as [| ? ? _ Hitems]; subst.
      destruct (run_loop_all_ok host (resolved_id response) Invoice ps [] _ items
                  Hext Hobj Hitems) as (Hsent & Hsnd).
      exists items. split; [exact Hlog |]. split.
      * rewrite <- (length_map sent), Hsent, length_map. reflexivity.
      * subst result. rewrite Hcall.
        destruct (run host _ [doc]) as [l [e | rs]]; cbn [snd] in *; [discriminate |].
        injection Hsnd as ->. reflexivity.
    + intros Hnot.
      replace (negb (Nat.eqb (List.length ps) 0) && Js.truthy (resolved_id response))
        with false in Hcall.
      * subst log result. rewrite Hcall. auto.
      * destruct Hnot as [-> | ->]; [reflexivity | now rewrite andb_false_r].
Qed.

Lemma create_invoice_result_shape_witness :
  exists items,
    fst (call created_host "create_invoice"
           (JObj [("contactId", JStr "5"); ("positions", JArr two_positions)])) =
      mkExchange
        (mkConfig (JStr "POST") (JStr "/Invoice")
           (create_invoice_payload created_host
              (JObj [("contactId", JStr "5"); ("positions", JArr two_positions)]))
           JUndefined)
        (Response 201 (JObj [("objects", JObj [("id", JNum 100)])])) :: items /\
    List.length items = 2%nat /\
    snd (call created_host "create_invoice"
           (JObj [("contactId", JStr "5"); ("positions", JArr two_positions)])) =
      inr (text_content
             (JObj [ ("invoice", JObj [("objects", JObj [("id", JNum 100)])]);
                     ("positions", JArr (map response_body items)) ])).
Proof.
  refine (proj1 (proj2 (create_invoice_result_shape created_host
                          [("contactId", JStr "5"); ("positions", JArr two_positions)] 201
                          (JObj [("objects", JObj [("id", JNum 100)])])
                          eq_refl eq_refl eq_refl)
                   two_positions eq_refl) _ _ _).
  - split; [discriminate | reflexivity].
  - repeat constructor.
  - vm_compute. repeat constructor.
Defined.

(** C9, counterexample to the unconditional reading: [list_invoices({contactId: 0})] supplies a contactId
    and the GET carries no [contact[id]] filter, because [if (contactId)]
    skips every falsy value. *)
Lemma list_invoices_zero_contact_unfiltered :
  ~ (forall (host : Host) (o : list (string * JSON)) (v : JSON) (fields : list (string * JSON)),
       Js.lookup "contactId" o = Some v ->
       map sent (fst (call host "list_invoices" (JObj o))) =
         [mkConfig (JStr "GET") (JStr "/Invoice") JUndefined (JObj fields)] ->
       Js.lookup "contact[id]" fields = Some v).
Proof.
  intros H.
  specialize (H offline_host [("contactId", JNum 0)] (JNum 0)
                [("limit", JNum 50); ("offset", JNum 0); ("countAll", JBool true)]
                eq_refl eq_refl).
  discriminate H.
Qed.

(** C9, as the code has it. [list_contacts] and [list_invoices] issue one GET whose
    query always has [countAll: true], and [limit] and [offset] as supplied,
    50 and 0 when they are not. For [list_invoices], [status] and
    [contactId] are passed (as [status] and [contact[id]]) when they are
    supplied and truthy, and left out otherwise. *)
Theorem list_query_parameters (host : Host) (o : list (string * JSON)) :
  let args := JObj o in
  let paging fields :=
    Js.lookup "countAll" fields = Some (JBool true) /\
    Js.lookup "limit" fields = Some (Js.prop_default args "limit" (JNum 50)) /\
    Js.lookup "offset" fields = Some (Js.prop_default args "offset" (JNum 0)) /\
    (Js.prop args "limit" = JUndefined -> Js.lookup "limit" fields = Some (JNum 50)) /\
    (Js.prop args "offset" = JUndefined -> Js.lookup "offset" fields = Some (JNum 0)) in
  let filter_of v := if Js.truthy v then Some v else None in
  (exists fields,
     map sent (fst (call host "list_contacts" args)) =
       [mkConfig (JStr "GET") (JStr "/Contact") JUndefined (JObj fields)] /\
     paging fields) /\
  (exists fields,
     map sent (fst (call host "list_invoices" args)) =
       [mkConfig (JStr "GET") (JStr "/Invoice") JUndefined (JObj fields)] /\
     paging fields /\
     Js.lookup "status" fields = filter_of (Js.prop args "status") /\
     Js.lookup "contact[id]" fields = filter_of (Js.prop args "contactId")).
Proof.
  intros args paging filter_of. unfold call, handler.
  change (dispatch host "list_contacts" ?a) with (list_contacts a).
  change (dispatch host "list_invoices" ?a) with (list_invoices a).
  unfold list_contacts, list_invoices. rewrite !run_single_request by reflexivity.
  cbn [fst map sent]. unfold list_contacts_params, list_invoices_params, set_if.
  subst paging filter_of. cbv beta.
  split.
  - destruct (Js.truthy (Js.prop args "depth"));
      destruct (Js.truthy (Js.prop args "customerNumber"));
      eexists; (split; [reflexivity |]);
      repeat split; try reflexivity; intros H; unfold Js.prop_default; simpl;
      unfold args in H; simpl in H; rewrite H; reflexivity.
  - destruct (Js.truthy (Js.prop args "status"));
      destruct (Js.truthy (Js.prop args "contactId"));
      eexists; (split; [reflexivity |]);
      repeat split; try reflexivity; intros H; unfold Js.prop_default; simpl;
      unfold args in H; simpl in H; rewrite H; reflexivity.
Qed.

(** * Further properties of the handlers *)

Lemma call_log (host : Host) (name : string) (args : JSON) :
  fst (call host name args) = fst (run host (dispatch host name args) []).
Proof.
  rewrite call_unfold.
  destruct (run host (dispatch host name args) []) as [log [e | r]]; reflexivity.
Qed.

Lemma dispatch_unknown (host : Host) (name : string) (args : JSON) :
  ~ In name tools ->
  dispatch host name args = Throw (McpError MethodNotFound ("Unknown tool: " ++ name)).
Proof.
  intros Hnot. unfold dispatch.
  repeat match goal with
         | |- (if (name =? ?t)%string then _ else _) = _ =>
             destruct (String.eqb_spec name t) as [-> | _];
             [exfalso; apply Hnot; simpl; tauto |]
         end.
  reflexivity.
Qed.

(** A program that starts with a request logs that request first. *)
Lemma run_request_first {A : Type} (host : Host) (m u d p : JSON) (k : JSON -> Prog A) :
  exists items,
    fst (run host (bind (SevDeskClient.request m u d p) k) []) =
    mkExchange (mkConfig m u d p) (backend host [] (mkConfig m u d p)) :: items.
Proof.
  rewrite run_bind, run_request. cbn [app].
  destruct (request_result _) as [e | r].
  - exists []. reflexivity.
  - destruct (run_extends host (k r)
                [mkExchange (mkConfig m u d p) (backend host [] (mkConfig m u d p))])
      as (items & H).
    exists items. exact H.
Qed.

(** X1. Whatever the tool, a call holds at most one failed exchange: it is
    the last one, every exchange before it succeeded, and its exception
    is what the error-flagged result reports. Nothing is retried. *)
Theorem failed_exchange_is_last (host : Host) (name : string) (args : JSON)
    (k : nat) (ex : Exchange) :
  nth_error (fst (call host name args)) k = Some ex ->
  succeeded ex = false ->
  List.length (fst (call host name args)) = S k /\
  (forall j earlier,
     (j < k)%nat -> nth_error (fst (call host name args)) j = Some earlier ->
     succeeded earlier = true) /\
  exists e,
    request_result (got ex) = inl e /\
    snd (call host name args) = inr (mkToolResult (JStr ("Error: " ++ message e)) true).
Proof.
  intros Hnth Hbad.
  destruct (call_fail_fast host name args k ex Hnth Hbad) as (Hlen & e & He & Hres).
  split; [exact Hlen |]. split.
  - intros j earlier Hj Hearlier.
    destruct (succeeded earlier) eqn:Hs; [reflexivity |].
    destruct (call_fail_fast host name args j earlier Hearlier Hs) as (Hlen' & _).
    lia.
  - exists e. split; [exact He | exact Hres].
Qed.

Lemma failed_exchange_is_last_witness :
  List.length (fst (call failing_host "create_invoice"
                      (JObj [("contactId", JStr "5"); ("positions", JArr three_positions)])))
    = 3%nat.
Proof.
  refine (proj1 (failed_exchange_is_last failing_host "create_invoice"
                   (JObj [("contactId", JStr "5"); ("positions", JArr three_positions)]) 2
                   (mkExchange
                      (position_post (JStr "42") Invoice
                         (JObj [("name", JStr "b"); ("price", JNum 2)]))
                      (Response 500 (JObj [("error", JStr "boom")])))
                   eq_refl eq_refl)).
Defined.

(** X2. The handler never throws: every call resolves to a result. A
    result that is not flagged as an error means that every request of the
    call was answered with a 2xx status. *)
Theorem unflagged_result_all_succeeded (host : Host) (name : string) (args : JSON) :
  exists result,
    snd (call host name args) = inr result /\
    (isError result = false ->
     Forall (fun ex => succeeded ex = true) (fst (call host name args))).
Proof.
  destruct (snd (call host name args)) as [e | result] eqn:Hsnd.
  - rewrite call_unfold in Hsnd.
    destruct (run host (dispatch host name args) []) as [log [x | r]]; discriminate.
  - exists result. split; [reflexivity |]. intros Hflag.
    apply Forall_forall. intros ex Hin.
    destruct (succeeded ex) eqn:Hs; [reflexivity |].
    destruct (In_nth_error _ _ Hin) as (k & Hnth).
    destruct (call_fail_fast host name args k ex Hnth Hs) as (_ & e & _ & Hres).
    rewrite Hres in Hsnd. injection Hsnd as <-. discriminate.
Qed.

Lemma unflagged_result_all_succeeded_witness :
  Forall (fun ex => succeeded ex = true)
         (fst (call created_host "create_invoice"
                 (JObj [("contactId", JStr "5"); ("positions", JArr two_positions)]))).
Proof.
  destruct (unflagged_result_all_succeeded created_host "create_invoice"
              (JObj [("contactId", JStr "5"); ("positions", JArr two_positions)]))
    as (result & Hres & Hall).
  apply Hall.
  vm_compute in Hres. injection Hres as <-. reflexivity.
Defined.

(** X3. A call without an argument object (null or undefined) issues no
    request, whatever the tool name, and resolves to an error-flagged
    result. *)
Theorem missing_arguments_no_request (host : Host) (name : string) (args : JSON) :
  Js.nullish args = true ->
  fst (call host name args) = [] /\
  exists e, snd (call host name args) = inr (error_content e) /\
            isError (error_content e) = true.
Proof.
  intros Hargs. rewrite call_unfold.
  assert (Hd : exists e, dispatch host name args = Throw e).
  { unfold dispatch.
    repeat match goal with
           | |- exists e, (if ?b then _ else _) = _ => destruct b
           end;
      unfold raw_request, list_contacts, create_contact, update_contact, update_invoice,
        update_offer, update, list_invoices, get_invoice_positions, create_invoice,
        create_offer, destructure;
      rewrite ?Hargs; cbn [bind]; eauto. }
  destruct Hd as (e & ->). cbn [run fst snd]. eauto.
Qed.

Lemma missing_arguments_no_request_witness :
  fst (call created_host "list_contacts" JUndefined) = [].
Proof.
  exact (proj1 (missing_arguments_no_request created_host "list_contacts" JUndefined eq_refl)).
Defined.

(** X4. Given an argument object, a call reaches the backend exactly when
    its name is one of the declared tools: each of the ten names issues a
    request, any other name issues none. *)
Theorem declared_tools_reach_backend (host : Host) (name : string) (args : JSON) :
  Js.nullish args = false ->
  (fst (call host name args) <> [] <-> In name tools).
Proof.
  intros Hargs. rewrite call_log. split.
  - intros Hlog. destruct (in_dec string_dec name tools) as [Hin | Hnot]; [exact Hin |].
    rewrite (dispatch_unknown host name args Hnot) in Hlog. contradiction Hlog. reflexivity.
  - intros Hin. simpl in Hin.
    repeat (destruct Hin as [<- | Hin]);
      [ change (dispatch host "request" args) with (raw_request args)
      | change (dispatch host "list_contacts" args) with (list_contacts args)
      | change (dispatch host "create_contact" args) with (create_contact args)
      | change (dispatch host "update_contact" args) with (update "/Contact/" "contactId" args)
      | change (dispatch host "list_invoices" args) with (list_invoices args)
      | change (dispatch host "get_invoice_positions" args) with (get_invoice_positions args)
      | change (dispatch host "create_invoice" args) with (create_invoice host args)
      | change (dispatch host "update_invoice" args) with (update "/Invoice/" "invoiceId" args)
      | change (dispatch host "create_offer" args) with (create_offer host args)
      | change (dispatch host "update_offer" args) with (update "/Order/" "orderId" args)
      | contradiction ];
      unfold raw_request, list_contacts, create_contact, update, list_invoices,
        get_invoice_positions, create_invoice, create_offer, destructure;
      rewrite Hargs; cbn [bind];
      match goal with
      | |- fst (run host (bind (SevDeskClient.request ?m ?u ?d ?p) ?k) []) <> [] =>
          destruct (run_request_first host m u d p k) as (items & ->); discriminate
      end.
Qed.

Lemma declared_tools_reach_backend_witness :
  fst (call created_host "get_invoice_positions" (JObj [("invoiceId", JStr "9")])) <> [].
Proof.
  apply (declared_tools_reach_backend created_host "get_invoice_positions"
           (JObj [("invoiceId", JStr "9")]) eq_refl).
  simpl. tauto.
Defined.

(** X5. Each of the eight tools other than [create_invoice] and
    [create_offer], given an argument object, issues exactly one request
    and nothing else: a 2xx answer comes back as the pretty-printed body,
    unflagged; any other outcome as the error-flagged exception. *)
Theorem simple_tools_one_request (host : Host) (name : string) (args : JSON) :
  In name simple_tools ->
  Js.nullish args = false ->
  exists c,
    fst (call host name args) = [mkExchange c (backend host [] c)] /\
    snd (call host name args) =
      match request_result (backend host [] c) with
      | inl e => inr (mkToolResult (JStr ("Error: " ++ message e)) true)
      | inr body => inr (mkToolResult (Json.stringify2 body) false)
      end.
Proof.
  intros Hin Hargs. unfold call, handler. simpl in Hin.
  repeat (destruct Hin as [<- | Hin]);
    [ change (dispatch host "request" args) with (raw_request args)
    | change (dispatch host "list_contacts" args) with (list_contacts args)
    | change (dispatch host "create_contact" args) with (create_contact args)
    | change (dispatch host "update_contact" args) with (update "/Contact/" "contactId" args)
    | change (dispatch host "list_invoices" args) with (list_invoices args)
    | change (dispatch host "get_invoice_positions" args) with (get_invoice_positions args)
    | change (dispatch host "update_invoice" args) with (update "/Invoice/" "invoiceId" args)
    | change (dispatch host "update_offer" args) with (update "/Order/" "orderId" args)
    | contradiction ];
    unfold raw_request, list_contacts, create_contact, update, list_invoices,
      get_invoice_positions;
    rewrite (run_single_request host args _ _ _ _ Hargs);
    eexists; split; reflexivity.
Qed.

Lemma simple_tools_one_request_witness :
  exists c,
    fst (call not_found_host "update_offer" (JObj [("orderId", JStr "3")])) =
      [mkExchange c (backend not_found_host [] c)].
Proof.
  destruct (simple_tools_one_request not_found_host "update_offer"
              (JObj [("orderId", JStr "3")])
              ltac:(simpl; tauto) eq_refl) as (c & Hlog & _).
  exists c. exact Hlog.
Defined.

(** X6. The raw [request] tool forwards [method], [url], [data] and
    [params] as they are (a missing one as undefined) and looks at nothing
    else: two argument objects that agree on these four keys give the
    same exchange and the same result. *)
Theorem raw_request_passthrough (host : Host) (a b : list (string * JSON)) :
  let config o :=
    mkConfig (Js.prop (JObj o) "method") (Js.prop (JObj o) "url")
             (Js.prop (JObj o) "data") (Js.prop (JObj o) "params") in
  map sent (fst (call host "request" (JObj a))) = [config a] /\
  (config a = config b -> call host "request" (JObj a) = call host "request" (JObj b)).
Proof.
  intros config. unfold call, handler.
  change (dispatch host "request" ?x) with (raw_request x).
  unfold raw_request. rewrite !run_single_request by reflexivity.
  split; [reflexivity |].
  intros Heq. unfold config in Heq. rewrite Heq. reflexivity.
Qed.

Lemma raw_request_passthrough_witness :
  call created_host "request"
       (JObj [("method", JStr "DELETE"); ("url", JStr "/Contact/7")]) =
  call created_host "request"
       (JObj [("url", JStr "/Contact/7"); ("note", JStr "cleanup"); ("method", JStr "DELETE")]).
Proof.
  apply (proj2 (raw_request_passthrough created_host
                  [("method", JStr "DELETE"); ("url", JStr "/Contact/7")]
                  [("url", JStr "/Contact/7"); ("note", JStr "cleanup");
                   ("method", JStr "DELETE")])).
  reflexivity.
Defined.

(** X7. [get_invoice_positions] issues one GET to [/InvoicePos] whose query
    has exactly the keys limit, offset, invoice[id] and
    invoice[objectName]: the paging defaults are 50 and 0, the invoice id
    is passed as given (undefined when absent, no truthiness test), the
    object name is always "Invoice", and there is no countAll. *)
Theorem get_invoice_positions_query (host : Host) (o : list (string * JSON)) :
  let args := JObj o in
  exists fields,
    map sent (fst (call host "get_invoice_positions" args)) =
      [mkConfig (JStr "GET") (JStr "/InvoicePos") JUndefined (JObj fields)] /\
    map fst fields = ["limit"; "offset"; "invoice[id]"; "invoice[objectName]"] /\
    Js.lookup "limit" fields = Some (Js.prop_default args "limit" (JNum 50)) /\
    Js.lookup "offset" fields = Some (Js.prop_default args "offset" (JNum 0)) /\
    Js.lookup "invoice[id]" fields = Some (Js.prop args "invoiceId") /\
    Js.lookup "invoice[objectName]" fields = Some (JStr "Invoice") /\
    Js.lookup "countAll" fields = None.
Proof.
  intros args. unfold call, handler.
  change (dispatch host "get_invoice_positions" ?a) with (get_invoice_positions a).
  unfold get_invoice_positions. rewrite run_single_request by reflexivity.
  eexists. split; [reflexivity |]. repeat split.
Qed.

(** X8. [list_contacts] adds to the paging parameters [embed], always with
    the value "category,parent", exactly when [depth] is truthy (the value
    of [depth] itself is never sent), and [customerNumber] exactly when it
    is truthy. *)
Theorem list_contacts_filters (host : Host) (o : list (string * JSON)) :
  let args := JObj o in
  exists fields,
    map sent (fst (call host "list_contacts" args)) =
      [mkConfig (JStr "GET") (JStr "/Contact") JUndefined (JObj fields)] /\
    map fst fields =
      (["limit"; "offset"; "countAll"]
         ++ (if Js.truthy (Js.prop args "depth") then ["embed"] else [])
         ++ (if Js.truthy (Js.prop args "customerNumber") then ["customerNumber"] else []))%list /\
    Js.lookup "embed" fields =
      (if Js.truthy (Js.prop args "depth") then Some (JStr "category,parent") else None) /\
    Js.lookup "customerNumber" fields =
      (if Js.truthy (Js.prop args "customerNumber")
       then Some (Js.prop args "customerNumber") else None) /\
    Js.lookup "depth" fields = None.
Proof.
  intros args. unfold call, handler.
  change (dispatch host "list_contacts" ?a) with (list_contacts a).
  unfold list_contacts. rewrite run_single_request by reflexivity.
  unfold list_contacts_params, set_if.
  destruct (Js.truthy (Js.prop args "depth"));
    destruct (Js.truthy (Js.prop args "customerNumber"));
    eexists; (split; [reflexivity |]); repeat split.
Qed.

(** The first request of a document tool is the document POST. *)
Lemma call_document_first (host : Host) (t : ParentType) (args : JSON) :
  Js.nullish args = false ->
  exists items,
    fst (call host (document_tool t) args) =
    mkExchange (document_post host t args) (backend host [] (document_post host t args))
      :: items.
Proof.
  intros Hargs. rewrite call_log, dispatch_document.
  unfold destructure. rewrite Hargs. cbn [bind].
  destruct t; apply run_request_first.
Qed.

(** X9. The first request of [create_invoice] is a POST to [/Invoice] whose
    body has the keys contact, invoiceType, status, invoiceDate, header,
    currency, taxType, mapAll and, only when [deliveryDate] is truthy,
    deliveryDate. The invoice type is always "RE" and [mapAll] always true,
    whatever the arguments hold; status, header, currency and taxType
    default to "100", "Invoice", "EUR" and "default", and the invoice date
    to the clock of the host. *)
Theorem create_invoice_payload_shape (host : Host) (o : list (string * JSON)) :
  let args := JObj o in
  let supplied k := Js.prop args k in
  exists fields,
    map sent (firstn 1 (fst (call host "create_invoice" args))) =
      [mkConfig (JStr "POST") (JStr "/Invoice") (JObj fields) JUndefined] /\
    map fst fields =
      (["contact"; "invoiceType"; "status"; "invoiceDate"; "header"; "currency";
        "taxType"; "mapAll"]
         ++ (if Js.truthy (supplied "deliveryDate") then ["deliveryDate"] else []))%list /\
    Js.lookup "contact" fields =
      Some (JObj [("id", supplied "contactId"); ("objectName", JStr "Contact")]) /\
    Js.lookup "invoiceType" fields = Some (JStr "RE") /\
    Js.lookup "status" fields = Some (Js.or_else (supplied "status") (JStr "100")) /\
    Js.lookup "invoiceDate" fields =
      Some (Js.or_else (supplied "invoiceDate") (JStr (now host))) /\
    Js.lookup "header" fields = Some (Js.or_else (supplied "header") (JStr "Invoice")) /\
    Js.lookup "currency" fields = Some (Js.or_else (supplied "currency") (JStr "EUR")) /\
    Js.lookup "taxType" fields = Some (Js.or_else (supplied "taxType") (JStr "default")) /\
    Js.lookup "mapAll" fields = Some (JBool true) /\
    Js.lookup "deliveryDate" fields =
      (if Js.truthy (supplied "deliveryDate") then Some (supplied "deliveryDate") else None).
Proof.
  intros args supplied.
  destruct (call_document_first host Invoice args eq_refl) as (items & Hlog).
  cbn [document_tool] in Hlog. rewrite Hlog. cbn [firstn map sent document_post].
  unfold create_invoice_payload, set_if, reference. fold (supplied "deliveryDate").
  destruct (Js.truthy (supplied "deliveryDate"));
    eexists; (split; [reflexivity |]); repeat split.
Qed.

(** X10. The first request of [create_offer] is a POST to [/Order] whose
    body has exactly the keys contact, orderType, status, orderDate, header
    and mapAll. The order type is always "AN"; a deliveryDate, currency or
    taxType among the arguments is never sent. *)
Theorem create_offer_payload_shape (host : Host) (o : list (string * JSON)) :
  let args := JObj o in
  let supplied k := Js.prop args k in
  exists fields,
    map sent (firstn 1 (fst (call host "create_offer" args))) =
      [mkConfig (JStr "POST") (JStr "/Order") (JObj fields) JUndefined] /\
    map fst fields = ["contact"; "orderType"; "status"; "orderDate"; "header"; "mapAll"] /\
    Js.lookup "contact" fields =
      Some (JObj [("id", supplied "contactId"); ("objectName", JStr "Contact")]) /\
    Js.lookup "orderType" fields = Some (JStr "AN") /\
    Js.lookup "status" fields = Some (Js.or_else (supplied "status") (JStr "100")) /\
    Js.lookup "orderDate" fields = Some (Js.or_else (supplied "orderDate") (JStr (now host))) /\
    Js.lookup "header" fields = Some (Js.or_else (supplied "header") (JStr "Offer")) /\
    Js.lookup "mapAll" fields = Some (JBool true).
Proof.
  intros args supplied.
  destruct (call_document_first host Order args eq_refl) as (items & Hlog).
  cbn [document_tool] in Hlog. rewrite Hlog. cbn [firstn map sent document_post].
  unfold create_offer_payload, reference.
  eexists; (split; [reflexivity |]); repeat split.
Qed.

(** X11. [create_contact] issues one POST to [/Contact] whose body starts
    with objectName ("Contact", always), status (default "1000") and the
    category Reference built from [categoryId], followed by name, surename,
    familyname and customerNumber, in this order, each present exactly when
    the argument is truthy and then with the value supplied. *)
Theorem create_contact_payload_shape (host : Host) (o : list (string * JSON)) :
  let args := JObj o in
  let supplied k := Js.prop args k in
  let optional k := if Js.truthy (supplied k) then [k] else [] in
  let passed k := if Js.truthy (supplied k) then Some (supplied k) else None in
  exists fields,
    map sent (fst (call host "create_contact" args)) =
      [mkConfig (JStr "POST") (JStr "/Contact") (JObj fields) JUndefined] /\
    map fst fields =
      (["objectName"; "status"; "category"] ++ optional "name" ++ optional "surename"
         ++ optional "familyname" ++ optional "customerNumber")%list /\
    Js.lookup "objectName" fields = Some (JStr "Contact") /\
    Js.lookup "status" fields = Some (Js.or_else (supplied "status") (JStr "1000")) /\
    Js.lookup "category" fields =
      Some (JObj [("id", supplied "categoryId"); ("objectName", JStr "Category")]) /\
    Js.lookup "name" fields = passed "name" /\
    Js.lookup "surename" fields = passed "surename" /\
    Js.lookup "familyname" fields = passed "familyname" /\
    Js.lookup "customerNumber" fields = passed "customerNumber".
Proof.
  intros args supplied optional passed. unfold call, handler.
  change (dispatch host "create_contact" ?a) with (create_contact a).
  unfold create_contact. rewrite run_single_request by reflexivity.
  unfold create_contact_payload, set_if, reference, optional, passed.
  fold (supplied "name"). fold (supplied "surename").
  fold (supplied "familyname"). fold (supplied "customerNumber").
  destruct (Js.truthy (supplied "name"));
    destruct (Js.truthy (supplied "surename"));
    destruct (Js.truthy (supplied "familyname"));
    destruct (Js.truthy (supplied "customerNumber"));
    eexists; (split; [reflexivity |]); repeat split.
Qed.

(** ** Documents and positions, for both kinds *)

(** The log of a document tool given a list of positions: the document
    POST, then the POSTs of a prefix of the positions. *)
Lemma document_log_shape (host : Host) (t : ParentType) (args : JSON) (ps : list JSON) :
  Js.nullish args = false ->
  Js.prop args "positions" = JArr ps ->
  let doc := mkExchange (document_post host t args)
                        (backend host [] (document_post host t args)) in
  exists items,
    fst (call host (document_tool t) args) = doc :: items /\
    map sent items =
      map (position_post (resolved_id (response_body doc)) t) (firstn (List.length items) ps).
Proof.
  intros Hargs Hps doc.
  pose proof (call_document host t args Hargs) as Hcall. cbn [got] in Hcall.
  fold doc in Hcall.
  destruct (request_result (backend host [] (document_post host t args)))
    as [e0 | response] eqn:Hdoc.
  { exists []. rewrite Hcall. auto. }
  destruct (Js.nullish response); [exists []; rewrite Hcall; auto |].
  destruct (wants_positions host (Js.prop args "positions") (resolved_id response));
    [| exists []; rewrite Hcall; auto].
  rewrite Hps, createPositions_array in Hcall.
  destruct (run_extends host
              (SevDeskClient.createPositions_loop (resolved_id response) t ps [])
              [doc]) as (items & Hext).
  exists items.
  assert (Hbody : response_body doc = response).
  { unfold response_body. subst doc. cbn [got].
    destruct (backend host [] (document_post host t args)) as [s b | r | x]; simpl in Hdoc.
    - destruct (validateStatus s); congruence.
    - discriminate.
    - destruct x; discriminate. }
  rewrite Hbody. split.
  - rewrite Hcall. destruct (run host _ [doc]) as [log [e1 | rs]]; exact Hext.
  - eapply run_loop_prefix. exact Hext.
Qed.

(** X12. A document tool given a list of positions never issues more
    requests than one for the document and one per position: after the
    document POST come only POSTs to the position endpoint of the kind, at
    most as many as there are positions. *)
Theorem document_requests_bounded (host : Host) (t : ParentType)
    (o : list (string * JSON)) (ps : list JSON) :
  let args := JObj o in
  Js.prop args "positions" = JArr ps ->
  exists doc items,
    fst (call host (document_tool t) args) = doc :: items /\
    sent doc = document_post host t args /\
    (List.length items <= List.length ps)%nat /\
    Forall (fun ex => method (sent ex) = JStr "POST" /\
                      url (sent ex) = JStr (SevDeskClient.endpoint t)) items.
Proof.
  intros args Hps.
  destruct (document_log_shape host t args ps eq_refl Hps) as (items & Hlog & Hsent).
  eexists. exists items. split; [exact Hlog |]. split; [reflexivity |].
  assert (Hlen : (List.length items <= List.length ps)%nat).
  { rewrite <- (length_map sent), Hsent, length_map, length_firstn. lia. }
  split; [exact Hlen |].
  apply Forall_forall. intros ex Hin.
  apply (in_map sent) in Hin. rewrite Hsent in Hin.
  apply in_map_iff in Hin. destruct Hin as (pos & <- & _). split; reflexivity.
Qed.

Lemma document_requests_bounded_witness :
  exists doc items,
    fst (call failing_host "create_offer"
           (JObj [("contactId", JStr "5"); ("positions", JArr three_positions)])) = doc :: items /\
    (List.length items <= 3)%nat.
Proof.
  destruct (document_requests_bounded failing_host Order
              [("contactId", JStr "5"); ("positions", JArr three_positions)]
              three_positions eq_refl) as (doc & items & Hlog & _ & Hlen & _).
  exists doc, items. split; [exact Hlog | exact Hlen].
Defined.





(** X14. [create_offer] with a non-empty list of positions and an order
    POST answered with a response that yields an id: the position POSTs
    follow the order POST in input order, each carrying that id under
    [order]; when the positions are objects and every position request
    succeeds there is one per position and the result is the composite
    [{ offer, positions }] with the response bodies in input order. *)
Theorem create_offer_positions_in_order (host : Host) (o : list (string * JSON))
    (ps : list JSON) (status : Z) (response : JSON) :
  let args := JObj o in
  let post := mkConfig (JStr "POST") (JStr "/Order") (create_offer_payload host args)
                       JUndefined in
  Js.prop args "positions" = JArr ps ->
  ps <> [] ->
  backend host [] post = Response status response ->
  validateStatus status = true ->
  Js.truthy (resolved_id response) = true ->
  exists items,
    fst (call host "create_offer" args) = mkExchange post (Response status response) :: items /\
    map sent items =
      map (position_post (resolved_id response) Order) (firstn (List.length items) ps) /\
    (Forall (fun pos => Js.nullish pos = false) ps ->
     Forall (fun ex => succeeded ex = true) items ->
     map sent items = map (position_post (resolved_id response) Order) ps /\
     snd (call host "create_offer" args) =
       inr (text_content (JObj [ ("offer", response);
                                 ("positions", JArr (map response_body items)) ]))).
Proof.
  intros args post Hps Hne Hdoc Hvalid Hid.
  pose proof (call_document host Order args eq_refl) as Hcall.
  cbn [document_tool document_post] in Hcall. fold post in Hcall.
  cbn [got] in Hcall. rewrite Hdoc in Hcall. cbn [request_result] in Hcall.
  rewrite Hvalid, (resolved_id_nullish _ Hid), Hps, wants_positions_array, Hid in Hcall.
  replace (negb (Nat.eqb (List.length ps) 0)) with true in Hcall
    by (destruct ps; [contradiction | reflexivity]).
  cbn [andb] in Hcall. rewrite createPositions_array in Hcall.
  destruct (run_extends host
              (SevDeskClient.createPositions_loop (resolved_id response) Order ps [])
              [mkExchange post (Response status response)]) as (items & Hext).
  exists items. split; [| split].
  - rewrite Hcall.
    destruct (run host _ [mkExchange post (Response status response)]) as [log [e | rs]];
      exact Hext.
  - eapply run_loop_prefix. exact Hext.
  - intros Hobj Hitems.
    destruct (run_loop_all_ok host (resolved_id response) Order ps [] _ items Hext Hobj Hitems)
      as (Hsent & Hsnd).
    split; [exact Hsent |].
    rewrite Hcall.
    destruct (run host _ [mkExchange post (Response status response)]) as [log [e | rs]];
      cbn [snd] in *; [discriminate |].
    injection Hsnd as ->. reflexivity.
Qed.

Lemma create_offer_positions_in_order_witness :
  let log := fst (call order_host "create_offer"
                    (JObj [("contactId", JStr "5"); ("positions", JArr two_positions)])) in
  map sent (tl log) = map (position_post (JStr "77") Order) two_positions /\
  snd (call order_host "create_offer"
         (JObj [("contactId", JStr "5"); ("positions", JArr two_positions)])) =
    inr (text_content
           (JObj [ ("offer", JObj [("objects", JObj [("id", JStr "77")])]);
                   ("positions", JArr (map response_body (tl log))) ])).
Proof.
  intros log.
  destruct (create_offer_positions_in_order order_host
              [("contactId", JStr "5"); ("positions", JArr two_positions)]
              two_positions 201 (JObj [("objects", JObj [("id", JStr "77")])])
              eq_refl ltac:(discriminate) eq_refl eq_refl eq_refl)
    as (items & Hlog & _ & Hall).
  assert (Hitems : items = tl log) by (unfold log; rewrite Hlog; reflexivity).
  rewrite Hitems in Hall. apply Hall.
  - repeat constructor.
  - vm_compute. repeat constructor.
Defined.

(** The loop stops with a TypeError at the first position that is null or
    undefined, after the requests of the positions before it. *)
Lemma run_loop_null (host : Host) (id : JSON) (t : ParentType) :
  forall k ps results log items bad,
    fst (run host (SevDeskClient.createPositions_loop id t ps results) log)
      = (log ++ items)%list ->
    nth_error ps k = Some bad ->
    Js.nullish bad = true ->
    Forall (fun pos => Js.nullish pos = false) (firstn k ps) ->
    Forall (fun ex => succeeded ex = true) items ->
    List.length items = k /\
    exists msg,
      snd (run host (SevDeskClient.createPositions_loop id t ps results) log)
        = inl (TypeError msg).
Proof.
  induction k as [| k IH]; intros ps results log items bad Hlog Hnth Hbad Hpre Hok.
  - destruct ps as [| pos rest]; [discriminate |]. injection Hnth as ->.
    cbn [SevDeskClient.createPositions_loop] in *.
    unfold SevDeskClient.position_payload in *. rewrite Hbad in *.
    cbn [bind run fst snd] in *. apply app_nil_tail in Hlog. subst items.
    split; [reflexivity | eauto].
  - destruct ps as [| pos rest]; [discriminate |]. cbn [nth_error] in Hnth.
    cbn [firstn] in Hpre. inversion Hpre as [| ? ? Hpos Hrest]; subst.
    rewrite (run_loop_cons host id t pos rest results log Hpos) in *.
    set (ex := mkExchange (position_post id t pos)
                          (backend host log (position_post id t pos))) in *.
    destruct (request_result (got ex)) as [e | r] eqn:Hres.
    + simpl in Hlog. apply app_same_head in Hlog. subst items.
      inversion Hok as [| ? ? Hex _]; subst.
      rewrite (request_result_succeeded ex Hex) in Hres. discriminate.
    + destruct (run_extends host
                  (SevDeskClient.createPositions_loop id t rest (results ++ [r]))
                  (log ++ [ex])%list) as (items' & Hext).
      assert (Hitems : items = ex :: items').
      { rewrite Hext, <- app_assoc in Hlog. apply app_same_head in Hlog.
        symmetry. exact Hlog. }
      subst items. inversion Hok as [| ? ? _ Hok']; subst.
      destruct (IH rest (results ++ [r])%list (log ++ [ex])%list items' bad
                  Hext Hnth Hbad Hrest Hok') as (Hlen & msg & Hsnd).
      split; [simpl; congruence | eauto].
Qed.

(** X15. A null (or undefined) entry in the list of positions is not
    checked before the document is created: when the entry at index k is
    the first such entry and the requests before it succeed, the call
    issues the document POST and the POSTs of the k positions before it,
    then stops with a TypeError, reported as an error-flagged result. *)
Theorem null_position_aborts (host : Host) (t : ParentType) (o : list (string * JSON))
    (ps : list JSON) (k : nat) (bad : JSON) (status : Z) (response : JSON) :
  let args := JObj o in
  Js.prop args "positions" = JArr ps ->
  nth_error ps k = Some bad ->
  Js.nullish bad = true ->
  Forall (fun pos => Js.nullish pos = false) (firstn k ps) ->
  backend host [] (document_post host t args) = Response status response ->
  validateStatus status = true ->
  Js.truthy (resolved_id response) = true ->
  Forall (fun ex => succeeded ex = true) (fst (call host (document_tool t) args)) ->
  List.length (fst (call host (document_tool t) args)) = S k /\
  map sent (tl (fst (call host (document_tool t) args))) =
    map (position_post (resolved_id response) t) (firstn k ps) /\
  exists msg,
    snd (call host (document_tool t) args) = inr (error_content (TypeError msg)) /\
    error_content (TypeError msg) = mkToolResult (JStr ("Error: " ++ msg)) true.
Proof.
  intros args Hps Hnth Hbad Hpre Hdoc Hvalid Hid Hok.
  pose proof (call_document host t args eq_refl) as Hcall. cbn [got] in Hcall.
  rewrite Hdoc in Hcall. cbn [request_result] in Hcall.
  rewrite Hvalid, (resolved_id_nullish _ Hid), Hps, wants_positions_array, Hid in Hcall.
  replace (negb (Nat.eqb (List.length ps) 0)) with true in Hcall
    by (destruct ps; [destruct k; discriminate | reflexivity]).
  cbn [andb] in Hcall. rewrite createPositions_array in Hcall.
  set (doc := mkExchange (document_post host t args) (Response status response)) in *.
  destruct (run_extends host
              (SevDeskClient.createPositions_loop (resolved_id response) t ps [])
              [doc]) as (items & Hext).
  assert (Hlog : fst (call host (document_tool t) args) = doc :: items).
  { rewrite Hcall. destruct (run host _ [doc]) as [log [e | rs]]; exact Hext. }
  rewrite Hlog in *. inversion Hok as [| ? ? _ Hitems]; subst.
  destruct (run_loop_null host (resolved_id response) t k ps [] [doc] items bad
              Hext Hnth Hbad Hpre Hitems) as (Hlen & msg & Hsnd).
  split; [simpl; congruence |]. split.
  - cbn [tl]. rewrite (run_loop_prefix host _ t ps [] [doc] items Hext), Hlen. reflexivity.
  - exists msg. rewrite Hcall.
    destruct (run host _ [doc]) as [log [e | rs]]; cbn [snd] in Hsnd; [| discriminate].
    injection Hsnd as ->. split; reflexivity.
Qed.

Lemma null_position_aborts_witness :
  List.length (fst (call created_host "create_invoice"
                      (JObj [("contactId", JStr "5");
                             ("positions",
                              JArr [JObj [("name", JStr "a"); ("price", JNum 1)]; JNull])])))
    = 2%nat.
Proof.
  refine (proj1 (null_position_aborts created_host Invoice
                   [("contactId", JStr "5");
                    ("positions", JArr [JObj [("name", JStr "a"); ("price", JNum 1)]; JNull])]
                   [JObj [("name", JStr "a"); ("price", JNum 1)]; JNull] 1 JNull
                   201 (JObj [("objects", JObj [("id", JNum 100)])])
                   eq_refl eq_refl eq_refl _ eq_refl eq_refl eq_refl _)).
  - repeat constructor.
  - vm_compute. repeat constructor.
Defined.

(** X16. An exception of the client that is not an AxiosError passes
    through [request] unchanged: whatever the tool, the call ends there
    and the result carries the message of that exception, without the
    "SevDesk API Error" rewording. *)
Theorem foreign_exception_passes_through (host : Host) (name : string) (args : JSON)
    (ex : Exchange) (e : Exn) :
  In ex (fst (call host name args)) ->
  got ex = Crash e ->
  is_axios_error e = false ->
  request_result (got ex) = inl e /\
  snd (call host name args) = inr (mkToolResult (JStr ("Error: " ++ message e)) true).
Proof.
  intros Hin Hgot Hforeign.
  assert (Hres : request_result (got ex) = inl e).
  { rewrite Hgot. destruct e; try reflexivity. discriminate. }
  split; [exact Hres |].
  assert (Hbad : succeeded ex = false) by (unfold succeeded; rewrite Hgot; reflexivity).
  destruct (In_nth_error _ _ Hin) as (k & Hnth).
  destruct (call_fail_fast host name args k ex Hnth Hbad) as (_ & e' & He' & Hcall).
  assert (e' = e) as -> by congruence.
  exact Hcall.
Qed.

Lemma foreign_exception_passes_through_witness :
  snd (call crash_host "list_invoices" (JObj [])) =
  inr (mkToolResult (JStr ("Error: " ++ "Invalid URL")) true).
Proof.
  refine (proj2 (foreign_exception_passes_through crash_host "list_invoices" (JObj [])
                   (mkExchange
                      (mkConfig (JStr "GET") (JStr "/Invoice") JUndefined
                         (JObj [("limit", JNum 50); ("offset", JNum 0);
                                ("countAll", JBool true)]))
                      (Crash (TypeError "Invalid URL")))
                   (TypeError "Invalid URL") _ eq_refl eq_refl)).
  vm_compute. left. reflexivity.
Defined.

Lemma filter_absent_key (k : string) (o : list (string * JSON)) :
  Js.lookup k o = None ->
  filter (fun kv => negb (fst kv =? k)%string) o = o.
Proof.
  induction o as [| [k' v] rest IH]; simpl; [reflexivity |].
  destruct (k' =? k)%string; [discriminate |].
  intros H. simpl. f_equal. apply IH, H.
Qed.

(** X17. The update tools do not check that the id is there: without the
    id key in the arguments the PUT still goes out, to the path that ends
    in the text "undefined", with the whole argument object as its body. *)
Theorem update_without_id (host : Host) (name prefix idKey : string)
    (o : list (string * JSON)) :
  In (name, (prefix, idKey)) update_tools ->
  Js.lookup idKey o = None ->
  map sent (fst (call host name (JObj o))) =
    [mkConfig (JStr "PUT") (JStr (prefix ++ "undefined")) (JObj o) JUndefined].
Proof.
  intros Hin Hnone. unfold call, handler. simpl in Hin.
  destruct Hin as [Heq | [Heq | [Heq | []]]]; injection Heq as <- <- <-;
    [ change (dispatch host "update_contact" ?a) with (update "/Contact/" "contactId" a)
    | change (dispatch host "update_invoice" ?a) with (update "/Invoice/" "invoiceId" a)
    | change (dispatch host "update_offer" ?a) with (update "/Order/" "orderId" a) ];
    unfold update; rewrite run_single_request by reflexivity;
    unfold Js.rest_without; cbn [Js.own_enumerable fst map sent Js.prop];
    rewrite (filter_absent_key _ o Hnone), Hnone; reflexivity.
Qed.

Lemma update_without_id_witness :
  map sent (fst (call created_host "update_invoice" (JObj [("status", JStr "200")]))) =
  [mkConfig (JStr "PUT") (JStr "/Invoice/undefined") (JObj [("status", JStr "200")])
            JUndefined].
Proof.
  apply (update_without_id created_host "update_invoice" "/Invoice/" "invoiceId"
           [("status", JStr "200")]).
  - simpl. tauto.
  - reflexivity.
Defined.

Lemma Leaves_bind {A B : Type} (P : B -> Prop) (p : Prog A) (f : A -> Prog B) :
  (forall a, Leaves P (f a)) -> Leaves P (bind p f).
Proof.
  intros Hf. induction p as [a | e | c k IH]; simpl; auto.
Qed.

Lemma Leaves_run {A : Type} (P : A -> Prop) (host : Host) (p : Prog A) :
  Leaves P p -> forall log a, snd (run host p log) = inr a -> P a.
Proof.
  induction p as [x | e | c k IH]; simpl; intros Hp log a Hrun.
  - injection Hrun as <-. exact Hp.
  - discriminate.
  - eapply IH; [apply Hp | exact Hrun].
Qed.

Lemma Leaves_dispatch (host : Host) (name : string) (args : JSON) :
  Leaves is_text_content (dispatch host name args).
Proof.
  unfold dispatch.
  repeat match goal with
         | |- Leaves _ (if ?b then _ else _) => destruct b
         end;
    try exact I;
    unfold raw_request, list_contacts, create_contact, update_contact, update_invoice,
      update_offer, update, list_invoices, get_invoice_positions, create_invoice,
      create_offer;
    repeat (apply Leaves_bind; intros ?);
    try (simpl; unfold is_text_content; eauto; fail);
    match goal with
    | |- Leaves _ (if ?b then _ else _) => destruct b
    end;
    repeat (apply Leaves_bind; intros ?);
    simpl; unfold is_text_content; eauto.
Qed.

(** X18. What a call resolves to has one of two shapes, whatever the tool
    and the backend: the text "Error: " followed by the message of the
    exception, with the error flag, or the pretty-printed JSON of a value,
    without it. The flag is set exactly when the switch threw. *)
Theorem result_is_error_or_text (host : Host) (name : string) (args : JSON) :
  (exists e,
     snd (run host (dispatch host name args) []) = inl e /\
     snd (call host name args) = inr (mkToolResult (JStr ("Error: " ++ message e)) true)) \/
  (exists value,
     snd (run host (dispatch host name args) []) = inr (text_content value) /\
     snd (call host name args) = inr (mkToolResult (Json.stringify2 value) false)).
Proof.
  rewrite call_unfold.
  pose proof (Leaves_run is_text_content host _ (Leaves_dispatch host name args) []) as Hleaf.
  destruct (run host (dispatch host name args) []) as [log [e | result]]; cbn [snd] in *.
  - left. exists e. split; reflexivity.
  - right. destruct (Hleaf result eq_refl) as (value & ->).
    exists value. split; reflexivity.
Qed.
